(** * Biscuit build scripts: stamp.py, xxd.py and mem_analyze.py

    A shallow embedding of the three Python scripts of the repository:

    - [src/biscuit/src/kernel/stamp.py], the boot-sector finisher
      (module [Stamp]);
    - [src/biscuit/scripts/xxd.py], the hex-array emitter (module [Xxd]);
    - [src/mem_analyze.py], the meminfo reporter (module [MemAnalyze]).

    Each script is a straight-line program over a file store and the
    standard streams.  It is embedded as a function in a state-and-error
    monad [io]: the state is the part of the world the script can touch,
    the error is the Python exception that ends the process.

    Python values are modelled as follows.
    - [int] is [Z] (unbounded).
    - [float] is the IEEE 754 binary64 format of the Standard Library's
      [SpecFloat] ([prec = 53], [emax = 1024]), round to nearest even.
    - [bytes] is [list byte]; indexing a [bytes] object yields the
      integer [Byte.to_N b].
    - [str] is [string]; one [ascii] stands for one code point, so the
      model covers text over the code points 0-255.
    - [dict] with string keys is [gmap string _].

    A file store maps a path to the contents of a regular file that
    the process can read and append to; a path that is not in the
    store cannot be opened.  The meminfo reporter opens its file in
    text mode: it is modelled on the decoded text ([MemAnalyze.World])
    and on the bytes with their decoder ([MemAnalyze.Disk]). *)

From Stdlib Require Import ZArith NArith List String Ascii Strings.Byte Lia.
From Stdlib Require Import DecimalString HexadecimalString.
From Stdlib Require Import DecimalN DecimalZ DecimalPos HexadecimalN.
From Stdlib Require Import Floats.SpecFloat.
From stdpp Require Import base option list strings gmap.

Local Open Scope string_scope.
Local Open Scope list_scope.
Local Open Scope Z_scope.

(** ** Python prelude *)

Module Py.

(** The exceptions the three scripts can end with. *)
Inductive exn : Type :=
| ValueError (msg : string)
| IndexError (msg : string)
| OSError (path : string)
| OverflowError (msg : string)
| ZeroDivisionError (msg : string)
| UnicodeDecodeError (encoding : string) (start : nat) (reason : string)
| SystemExit (code : Z).

Inductive result (A : Type) : Type :=
| Ok (a : A)
| Raise (e : exn).
Arguments Ok {A} a.
Arguments Raise {A} e.

(** The exit status of the interpreter: 0 when the module body runs
    to its end, the argument of [sys.exit], and 1 for an exception
    that nobody catches. *)
Definition exit_status {A} (r : result A) : Z :=
  match r with
  | Ok _ => 0
  | Raise (SystemExit c) => c
  | Raise _ => 1
  end.

(** State-and-error monad: an exception keeps the state reached so
    far (a write that happened before the [raise] stays written). *)
Definition io (St A : Type) : Type := St -> result A * St.

Definition ret {St A} (a : A) : io St A := fun s => (Ok a, s).

Definition bind {St A B} (m : io St A) (k : A -> io St B) : io St B :=
  fun s =>
    match m s with
    | (Ok a, s') => k a s'
    | (Raise e, s') => (Raise e, s')
    end.

Definition raise {St A} (e : exn) : io St A := fun s => (Raise e, s).

Definition lift {St A} (r : result A) : io St A := fun s => (r, s).

Definition modify {St} (f : St -> St) : io St unit := fun s => (Ok tt, f s).

Declare Scope io_scope.
Delimit Scope io_scope with io.
Notation "x <- m ;; k" := (bind m (fun x => k))
  (at level 100, m at next level, k at level 200, right associativity) : io_scope.
Notation "m ;; k" := (bind m (fun _ => k))
  (at level 100, k at level 200, right associativity) : io_scope.

(** [for x in l: body] *)
Fixpoint for_ {St A} (l : list A) (body : A -> io St unit) : io St unit :=
  match l with
  | [] => ret tt
  | x :: l' => bind (body x) (fun _ => for_ l' body)
  end.

(** [enumerate(l)] *)
Fixpoint enumerate_from {A} (i : Z) (l : list A) : list (Z * A) :=
  match l with
  | [] => []
  | x :: l' => (i, x) :: enumerate_from (i + 1) l'
  end.
Definition enumerate {A} (l : list A) : list (Z * A) := enumerate_from 0 l.

(** [len(l)] *)
Definition len {A} (l : list A) : Z := Z.of_nat (length l).

(** [d[i]] for a [bytes] object [d] and a non-negative literal index
    [i]. *)
Definition index {St A} (l : list A) (i : nat) : io St A :=
  match l !! i with
  | Some x => ret x
  | None => raise (IndexError "index out of range")
  end.

(** [l[i]] for a [list] [l] and a non-negative literal index [i]. *)
Definition list_index {St A} (l : list A) (i : nat) : io St A :=
  match l !! i with
  | Some x => ret x
  | None => raise (IndexError "list index out of range")
  end.

(** *** Numbers *)

(** [str(n)], [%d] and [{n}] for an [int]. *)
Definition str_of_int (n : Z) : string :=
  DecimalString.NilZero.string_of_int (Z.to_int n).

(** [int(s)] for a decimal literal. *)
Definition int_of_str (s : string) : option Z :=
  Z.of_int <$> DecimalString.NilZero.int_of_string s.

Definition prec : Z := 53.
Definition emax : Z := 1024.

(** [float(n)] *)
Definition float_of_int (n : Z) : result spec_float :=
  match binary_normalize prec emax n 0 false with
  | S754_infinity _ => Raise (OverflowError "int too large to convert to float")
  | x => Ok x
  end.

(** An [int] as an exact, not yet rounded, binary number. *)
Definition exact_of_int (n : Z) : spec_float :=
  match n with
  | Z0 => S754_zero false
  | Zpos p => S754_finite false p 0
  | Zneg p => S754_finite true p 0
  end.

(** [a / b] on two [int]s: the exact quotient is rounded once, to
    nearest even. *)
Definition int_true_div (a b : Z) : result spec_float :=
  if b =? 0 then Raise (ZeroDivisionError "division by zero")
  else
    match SFdiv prec emax (exact_of_int a) (exact_of_int b) with
    | S754_infinity _ =>
        Raise (OverflowError "integer division result too large for a float")
    | x => Ok x
    end.

(** [x + n] for a [float] [x] and an [int] [n]. *)
Definition float_add_int (x : spec_float) (n : Z) : result spec_float :=
  match float_of_int n with
  | Ok y => Ok (SFadd prec emax x y)
  | Raise e => Raise e
  end.

(** [int(x)] for a [float]: truncation towards zero. *)
Definition int_of_float (x : spec_float) : result Z :=
  match x with
  | S754_zero _ => Ok 0
  | S754_finite s m e =>
      let v := match e with
               | Zneg k => Z.shiftr (Zpos m) (Zpos k)
               | _ => Z.shiftl (Zpos m) e
               end in
      Ok (if s then - v else v)
  | S754_infinity _ => Raise (OverflowError "cannot convert float infinity to integer")
  | S754_nan => Raise (ValueError "cannot convert float NaN to integer")
  end.

(** [%d] applied to a [float]: the float is truncated to an [int]
    first. *)
Definition fmt_d_float (x : spec_float) : result string :=
  match int_of_float x with
  | Ok n => Ok (str_of_int n)
  | Raise e => Raise e
  end.

(** [{n:02x}]: lower-case hexadecimal, zero-padded to two digits. *)
Definition fmt_02x (n : N) : string :=
  let s := HexadecimalString.NilZero.string_of_uint (N.to_hex_uint n) in
  if (String.length s <? 2)%nat then "0" +:+ s else s.

(** *** Strings *)

Definition LF : ascii := "010"%char.
Definition CR : ascii := "013"%char.
Definition nl : string := String LF "".

(** [c.isspace()] on the code points 0-255. *)
Definition isspace (c : ascii) : bool :=
  let n := N_of_ascii c in
  ((9 <=? n) && (n <=? 13) || (28 <=? n) && (n <=? 32)
   || (n =? 133) || (n =? 160))%N.

Fixpoint lstrip (s : string) : string :=
  match s with
  | String c s' => if isspace c then lstrip s' else s
  | "" => ""
  end.

Fixpoint rstrip (s : string) : string :=
  match s with
  | "" => ""
  | String c s' =>
      match rstrip s' with
      | "" => if isspace c then "" else String c ""
      | r => String c r
      end
  end.

(** [s.strip()] *)
Definition strip (s : string) : string := rstrip (lstrip s).

(** [s.split(sep)] for a one-character separator: every occurrence
    of [sep] cuts, and the result is never empty. *)
Fixpoint split (sep : ascii) (s : string) : list string :=
  match s with
  | "" => [""]
  | String c s' =>
      if Ascii.eqb c sep then "" :: split sep s'
      else match split sep s' with
           | p :: ps => String c p :: ps
           | [] => [String c ""]
           end
  end.

(** [s.replace(a, b)] for one-character [a] and [b]. *)
Fixpoint replace (a b : ascii) (s : string) : string :=
  match s with
  | "" => ""
  | String c s' => String (if Ascii.eqb c a then b else c) (replace a b s')
  end.

(** [Path(p).name] on a POSIX path: the last component that is
    neither empty nor ["."], and [""] when there is none. *)
Definition path_name (p : string) : string :=
  List.last (List.filter (fun x => negb (String.eqb x "" || String.eqb x "."))
               (split "/" p)) "".

(** Text mode with the default [newline=None]: ["\r\n"] and a lone
    ["\r"] are read as ["\n"]. *)
Fixpoint universal_newlines (s : string) : string :=
  match s with
  | "" => ""
  | String c s' =>
      if Ascii.eqb c CR then
        String LF match s' with
                  | String c' s'' =>
                      if Ascii.eqb c' LF then universal_newlines s''
                      else universal_newlines s'
                  | "" => ""
                  end
      else String c (universal_newlines s')
  end.

(** [for line in f]: the lines of a text, each with its ["\n"]; the
    last one has none when the text does not end in ["\n"]. *)
Fixpoint readlines (s : string) : list string :=
  match s with
  | "" => []
  | String c s' =>
      if Ascii.eqb c LF then String c "" :: readlines s'
      else match readlines s' with
           | l :: ls => String c l :: ls
           | [] => [String c ""]
           end
  end.

(** Number of occurrences of a character, [s.count(c)]. *)
Fixpoint count (c : ascii) (s : string) : nat :=
  match s with
  | "" => O
  | String c' s' => ((if Ascii.eqb c' c then 1 else 0) + count c s')%nat
  end.

(** [prefix in s] at the start of [s], [s.startswith(prefix)]. *)
Fixpoint startswith (prefix s : string) : bool :=
  match prefix, s with
  | "", _ => true
  | String a p', String b s' => Ascii.eqb a b && startswith p' s'
  | String _ _, "" => false
  end.

(** [sub in s] *)
Fixpoint contains (sub s : string) : bool :=
  startswith sub s ||
  match s with
  | "" => false
  | String _ s' => contains sub s'
  end.

End Py.

Import Py.
Local Open Scope io_scope.

(** ** stamp.py: the boot-sector finisher *)

Module Stamp.

(** The world of the script: the regular files, by path. *)
Abbreviation FS := (gmap string (list byte)).

(** [sys.argv[i]] *)
Definition sys_argv (argv : list string) (i : nat) : io FS string :=
  list_index argv i.

(** [os.path.getsize(fn)] *)
Definition getsize (fn : string) : io FS Z :=
  fun fs =>
    match fs !! fn with
    | Some d => (Ok (len d), fs)
    | None => (Raise (OSError fn), fs)
    end.

(** [with open(fn, 'ab') as f: f.write(bs)] *)
Definition append_bytes (fn : string) (bs : list byte) : io FS unit :=
  modify (fun fs => <[fn := default [] (fs !! fn) ++ bs]> fs).

(** [with open(fn, 'rb') as f: d = f.read(n)] *)
Definition read_prefix (fn : string) (n : nat) : io FS (list byte) :=
  fun fs =>
    match fs !! fn with
    | Some d => (Ok (take n d), fs)
    | None => (Raise (OSError fn), fs)
    end.

(** [b"\x00" * n] *)
Definition zeros (n : Z) : list byte := replicate (Z.to_nat n) x00.

Definition numblocks : Z := 10.

(** Line 11: [left = numblocks*512 - sz]. *)
Definition left (sz : Z) : Z := numblocks * 512 - sz.

(** The contents of the file after lines 21-22, from its contents
    before them. *)
Definition padded (data : list byte) : list byte :=
  data ++ zeros (left (len data)).

(** Lines 13-15: [sb = sz/512], then [sb += 1] when [sz % 512 != 0].
    The division is Python 3's true division: [sb] is a [float]. *)
Definition sb (sz : Z) : result spec_float :=
  match int_true_div sz 512 with
  | Ok x => if negb (sz mod 512 =? 0) then float_add_int x 1 else Ok x
  | Raise e => Raise e
  end.

(** Line 16: the message of the size error. *)
Definition size_message (sz : Z) : result string :=
  match sb sz with
  | Ok x =>
      match fmt_d_float x with
      | Ok d => Ok ("boot sector is bigger than numblocks (is "
                      +:+ str_of_int numblocks +:+ ", should be " +:+ d +:+ ")")
      | Raise e => Raise e
      end
  | Raise e => Raise e
  end.

(** The block count that the size error reports, as a number. *)
Definition reported_blocks (sz : Z) : result Z :=
  match sb sz with
  | Ok x => int_of_float x
  | Raise e => Raise e
  end.

Definition sig_message : string := "sig is wrong! fix damn text ordering somehow".

(** Lines 30-31; [or] evaluates [d[511]] only when [d[510] == 0x55]. *)
Definition check_sig (d : list byte) : io FS unit :=
  b510 <- index d 510 ;;
  if negb (Byte.to_N b510 =? 0x55)%N then raise (ValueError sig_message)
  else
    b511 <- index d 511 ;;
    if negb (Byte.to_N b511 =? 0xaa)%N then raise (ValueError sig_message)
    else ret tt.

(** The module body. *)
Definition stamp (argv : list string) : io FS unit :=
  fn <- sys_argv argv 1 ;;
  sz <- getsize fn ;;
  (if left sz <? 0 then
     s <- lift (size_message sz) ;;
     raise (ValueError s)
   else ret tt) ;;
  append_bytes fn (zeros (left sz)) ;;
  d <- read_prefix fn 512 ;;
  check_sig d.

(** *** Definitions used to state the properties *)

(** What the claims call "the ceiling of S/512". *)
Definition ceil_div (a b : Z) : Z := (a + b - 1) / b.

(** The boot signature: byte 510 is [0x55] and byte 511 is [0xaa]. *)
Definition has_boot_sig (d : list byte) : Prop :=
  d !! 510%nat = Some x55 /\ d !! 511%nat = Some xaa.

#[global] Instance byte_eq_dec : EqDecision byte := Byte.byte_eq_dec.

#[global] Instance has_boot_sig_dec d : Decision (has_boot_sig d).
Proof. unfold has_boot_sig. apply _. Defined.

(** A bootable image of one block: 510 zero bytes and the signature. *)
Definition boot_image : list byte := replicate 510 x00 ++ [x55; xaa].

(** The same image after a run of the script. *)
Definition stamped_image : list byte := padded boot_image.

(** An image without the signature: one block of zero bytes. *)
Definition blank_image : list byte := replicate 512 x00.

(** A file of [2^53 - 1] bytes (a sparse file can be that large). *)
Definition huge_size : Z := 9007199254740991.
Definition huge_image : list byte := replicate (Z.to_nat huge_size) x00.

(** The reported block count is the ceiling of [sz/512]. *)
Definition reports_ceiling (sz : Z) : bool :=
  match reported_blocks sz with
  | Ok n => n =? ceil_div sz 512
  | Raise _ => false
  end.

(** A file one byte too long. *)
Definition oversize_image : list byte := replicate (Z.to_nat 5121) x00.

End Stamp.

(** ** xxd.py: the hex-array emitter *)

Module Xxd.

(** The world of the script: the files, the two output streams and
    the log of the paths handed to [open]. *)
Record World : Type := mkWorld {
  files : gmap string (list byte);
  stdout : string;
  stderr : string;
  opened : list string
}.

(** [sys.stderr.write(s)] *)
Definition stderr_write (s : string) : io World unit :=
  modify (fun w => mkWorld (files w) (stdout w) (stderr w +:+ s) (opened w)).

(** [print(s, end=e)] *)
Definition print_end (s e : string) : io World unit :=
  modify (fun w => mkWorld (files w) (stdout w +:+ s +:+ e) (stderr w) (opened w)).

(** [print(s)] *)
Definition print (s : string) : io World unit := print_end s nl.

(** [sys.exit(c)] *)
Definition sys_exit (c : Z) : io World unit := raise (SystemExit c).

(** [with open(path, 'rb') as f: data = f.read()] *)
Definition read_bytes (path : string) : io World (list byte) :=
  fun w =>
    let w' := mkWorld (files w) (stdout w) (stderr w) (opened w ++ [path]) in
    match files w !! path with
    | Some d => (Ok d, w')
    | None => (Raise (OSError path), w')
    end.

Definition usage : string := "usage: xxd.py <file>" +:+ nl.

(** Line 16: the identifier derived from the file name. *)
Definition c_name (path : string) : string :=
  replace "." "_" (replace "-" "_" (path_name path)).

(** Lines 25-27: the body of the loop for the pair [(i, b)]. *)
Definition emit_entry (ib : Z * byte) : io World unit :=
  let '(i, b) := ib in
  let end_ := if (i + 1) mod 12 =? 0 then nl else "" in
  let sep := if i mod 12 =? 0 then " " else "" in
  print_end (sep +:+ "0x" +:+ fmt_02x (Byte.to_N b) +:+ ",") end_.

(** The module body. *)
Definition xxd (argv : list string) : io World unit :=
  (if negb (len argv =? 2) then
     stderr_write usage ;;
     sys_exit 1
   else ret tt) ;;
  path <- list_index argv 1 ;;
  let name := c_name path in
  data <- read_bytes path ;;
  print ("unsigned char " +:+ name +:+ "[] = {") ;;
  for_ (enumerate data) emit_entry ;;
  (if negb (len data mod 12 =? 0) then print "" else ret tt) ;;
  print "};" ;;
  print ("unsigned int " +:+ name +:+ "_len = " +:+ str_of_int (len data) +:+ ";").

(** *** Definitions used to state the properties *)

(** The text of one entry, and what the loop prints around it. *)
Definition entry (b : byte) : string := "0x" +:+ fmt_02x (Byte.to_N b).
Definition sep_of (i : Z) : string := if i mod 12 =? 0 then " " else "".
Definition end_of (i : Z) : string := if (i + 1) mod 12 =? 0 then nl else "".

(** The text the loop of lines 24-27 prints from index [i] on. *)
Fixpoint entries_text (i : Z) (data : list byte) : string :=
  match data with
  | [] => ""
  | b :: rest =>
      sep_of i +:+ entry b +:+ "," +:+ end_of i +:+ entries_text (i + 1) rest
  end.

(** The text between the header line and the closing brace. *)
Definition array_body (data : list byte) : string :=
  entries_text 0 data +:+ (if negb (len data mod 12 =? 0) then nl else "").

Definition length_line (name : string) (n : Z) : string :=
  "unsigned int " +:+ name +:+ "_len = " +:+ str_of_int n +:+ ";".

Definition output_text (name : string) (data : list byte) : string :=
  "unsigned char " +:+ name +:+ "[] = {" +:+ nl
  +:+ array_body data
  +:+ "};" +:+ nl
  +:+ length_line name (len data) +:+ nl.

(** A store that holds the three bytes of the example under the
    name [foo.bin], and the text that claim C6 expects for it. *)
Definition foo_world : World :=
  mkWorld {[ "foo.bin" := [x00; x01; x02] ]} "" "" [].

Definition claimed_foo_text : string :=
  "unsigned char foo_bin[] = {" +:+ nl
  +:+ " 0x00, 0x01, 0x02," +:+ nl
  +:+ "};" +:+ nl
  +:+ "unsigned int foo_bin_len = 3;" +:+ nl.

(** The world after [s] went to the standard output. *)
Definition put (w : World) (s : string) : World :=
  mkWorld (files w) (stdout w +:+ s) (stderr w) (opened w).

(** *** Reading the emitted text back

    The entries of an array literal: the text between the braces is
    cut at every comma, what follows the last comma is dropped, and
    white space around an entry does not count. *)
Definition entries_of (body : string) : list string :=
  map strip (removelast (split "," body)).

Definition is_lower_hex (c : ascii) : bool :=
  let n := N_of_ascii c in
  ((48 <=? n) && (n <=? 57) || (97 <=? n) && (n <=? 102))%N.

(** The pattern [0x[0-9a-f]{2}]. *)
Definition is_hex_entry (s : string) : bool :=
  match s with
  | String z (String x (String h (String l ""))) =>
      Ascii.eqb z "0" && Ascii.eqb x "x" && is_lower_hex h && is_lower_hex l
  | _ => false
  end.

(** The value of an entry. *)
Definition entry_value (s : string) : option N :=
  match s with
  | String _ (String _ digits) =>
      N.of_hex_uint <$> HexadecimalString.NilZero.uint_of_string digits
  | _ => None
  end.

(** The entries of one line, each with its comma. *)
Fixpoint entries_join (row : list byte) : string :=
  match row with
  | [] => ""
  | b :: rest => entry b +:+ "," +:+ entries_join rest
  end.

(** A full line of the array body. *)
Definition row_text (row : list byte) : string :=
  " " +:+ entries_join row +:+ nl.

(** A store with an empty file. *)
Definition empty_world : World :=
  mkWorld {[ "empty.bin" := [] ]} "" "" [].

(** Twelve bytes, a full line. *)
Definition full_row : list byte :=
  [x00; x01; x02; x03; x04; x05; x06; x07; x08; x09; x0a; x0b].

End Xxd.

(** ** mem_analyze.py: the meminfo reporter *)

Module MemAnalyze.

(** The world of the script on decoded text: the text files (already
    decoded) and the standard output.  The bytes of a file and their
    decoding are modelled by [Disk] below. *)
Record World : Type := mkWorld {
  files : gmap string string;
  stdout : string
}.

Definition meminfo_path : string := "/proc/meminfo".

(** [with open(path) as f: ...]: the text of the file as the script
    sees it. *)
Definition open_text (path : string) : io World string :=
  fun w =>
    match files w !! path with
    | Some t => (Ok (universal_newlines t), w)
    | None => (Raise (OSError path), w)
    end.

(** [print(s)] *)
Definition print (s : string) : io World unit :=
  modify (fun w => mkWorld (files w) (stdout w +:+ s +:+ nl)).

(** [(key, value) = parts] *)
Definition unpack2 (parts : list string) : result (string * string) :=
  match parts with
  | [k; v] => Ok (k, v)
  | [] => Raise (ValueError "not enough values to unpack (expected 2, got 0)")
  | [_] => Raise (ValueError "not enough values to unpack (expected 2, got 1)")
  | _ => Raise (ValueError "too many values to unpack (expected 2)")
  end.

(** The dict comprehension of line 8: the pairs are unpacked and
    stored from left to right, a later key overwrites an earlier
    one, the first list that is not a pair raises. *)
Fixpoint build_dict (m : gmap string string) (parts : list (list string))
  : result (gmap string string) :=
  match parts with
  | [] => Ok m
  | p :: ps =>
      match unpack2 p with
      | Ok (k, v) => build_dict (<[k := v]> m) ps
      | Raise e => Raise e
      end
  end.

(** Lines 6 and 8. *)
Definition parse_meminfo (text : string) : result (gmap string string) :=
  let lines := map strip (readlines text) in
  build_dict ∅ (map (split ":") lines).

Definition fields : list string :=
  ["MemTotal"; "MemFree"; "Buffers"; "Cached"; "SwapTotal"; "SwapFree"].

(** [d.get(k, dflt)] *)
Definition dict_get (d : gmap string string) (k dflt : string) : string :=
  default dflt (d !! k).

(** The text of line 11 for one field. *)
Definition field_line (meminfo : gmap string string) (field : string) : string :=
  field +:+ ": " +:+ strip (dict_get meminfo field "").

(** The module body. *)
Definition mem_analyze : io World unit :=
  text <- open_text meminfo_path ;;
  meminfo <- lift (parse_meminfo text) ;;
  for_ fields (fun field => print (field_line meminfo field)).

(** *** Definitions used to state the properties

    The key is what stands before the first colon of the stripped
    line, the value is what stands after it. *)
Fixpoint before (c : ascii) (s : string) : string :=
  match s with
  | "" => ""
  | String a s' => if Ascii.eqb a c then "" else String a (before c s')
  end.

Fixpoint after (c : ascii) (s : string) : string :=
  match s with
  | "" => ""
  | String a s' => if Ascii.eqb a c then s' else after c s'
  end.

Definition kv_of_line (line : string) : string * string :=
  (before ":" (strip line), after ":" (strip line)).

(** A dictionary filled from left to right: a later pair overwrites
    an earlier one with the same key. *)
Definition dict_from (kvs : list (string * string)) : gmap string string :=
  fold_left (fun m kv => <[kv.1 := kv.2]> m) kvs ∅.

(** The lines of the file as the script sees them. *)
Definition lines_of (text : string) : list string :=
  readlines (universal_newlines text).

(** What the script prints for a dictionary. *)
Definition report (meminfo : gmap string string) : string :=
  "MemTotal: " +:+ strip (dict_get meminfo "MemTotal" "") +:+ nl
  +:+ "MemFree: " +:+ strip (dict_get meminfo "MemFree" "") +:+ nl
  +:+ "Buffers: " +:+ strip (dict_get meminfo "Buffers" "") +:+ nl
  +:+ "Cached: " +:+ strip (dict_get meminfo "Cached" "") +:+ nl
  +:+ "SwapTotal: " +:+ strip (dict_get meminfo "SwapTotal" "") +:+ nl
  +:+ "SwapFree: " +:+ strip (dict_get meminfo "SwapFree" "") +:+ nl.

Definition world_of (text : string) : World :=
  mkWorld {[ meminfo_path := text ]} "".

(** A line is read as a pair exactly when it holds one colon. *)
Definition one_colon (line : string) : Prop := count ":" line = 1%nat.

(** The pair read from a line is the text on the two sides of its
    colon. *)
Definition splits_at_colon (line : string) : Prop :=
  strip line = (kv_of_line line).1 +:+ ":" +:+ (kv_of_line line).2
  /\ count ":" (kv_of_line line).1 = O
  /\ count ":" (kv_of_line line).2 = O.

(** The concatenation of a list of strings, [''.join(l)]. *)
Definition join_all (l : list string) : string :=
  fold_right String.append "" l.

(** The six lines printed when no field is known. *)
Definition empty_report : string :=
  "MemTotal: " +:+ nl +:+ "MemFree: " +:+ nl +:+ "Buffers: " +:+ nl
  +:+ "Cached: " +:+ nl +:+ "SwapTotal: " +:+ nl +:+ "SwapFree: " +:+ nl.

(** A text with a blank line in the middle. *)
Definition blank_line_text : string :=
  "MemTotal: 1" +:+ nl +:+ nl +:+ "MemFree: 2" +:+ nl.

(** A text that gives the field MemFree twice. *)
Definition twice_text : string :=
  "MemFree: 1" +:+ nl +:+ "MemFree: 2" +:+ nl.

(** *** The file as bytes

    [open(path)] reads bytes and decodes them with the encoding of the
    locale, [errors='strict'].  A disk holds the files as bytes and
    that decoder: [codec bs] is the text of [bs], or the exception
    that the decoder raises when the bytes are not valid in the
    encoding.  A path that [raw_files]
    does not hold cannot be opened or read.  [World] above is the
    script on the decoded text; [mem_analyze_bytes] is the script on
    a disk. *)
Record Disk : Type := mkDisk {
  raw_files : gmap string (list byte);
  codec : list byte -> result string;
  out : string
}.

(** [with open(path) as f: ...] on a disk: the text of the file as the
    script sees it. *)
Definition open_decoded (path : string) : io Disk string :=
  fun d =>
    match raw_files d !! path with
    | None => (Raise (OSError path), d)
    | Some bs =>
        match codec d bs with
        | Ok t => (Ok (universal_newlines t), d)
        | Raise e => (Raise e, d)
        end
    end.

(** [print(s)] *)
Definition print_out (s : string) : io Disk unit :=
  modify (fun d => mkDisk (raw_files d) (codec d) (out d +:+ s +:+ nl)).

(** Lines 5-8: the file is read and parsed. *)
Definition load_meminfo : io Disk (gmap string string) :=
  text <- open_decoded meminfo_path ;;
  lift (parse_meminfo text).

(** The module body, on a disk. *)
Definition mem_analyze_bytes : io Disk unit :=
  meminfo <- load_meminfo ;;
  for_ fields (fun field => print_out (field_line meminfo field)).

(** The codecs [latin-1] and [ascii].  Every byte is a character of
    [latin-1]; [ascii] raises at the first byte above 127. *)
Definition latin1 (bs : list byte) : result string :=
  Ok (string_of_list_byte bs).

Fixpoint first_non_ascii (bs : list byte) (i : nat) : option nat :=
  match bs with
  | [] => None
  | b :: bs' =>
      if (Byte.to_N b <? 128)%N then first_non_ascii bs' (S i) else Some i
  end.

Definition ascii_codec (bs : list byte) : result string :=
  match first_non_ascii bs 0 with
  | None => Ok (string_of_list_byte bs)
  | Some i => Raise (UnicodeDecodeError "ascii" i "ordinal not in range(128)")
  end.

(** *** Definitions used to state the properties of the output *)

(** A string of white space only. *)
Fixpoint all_space (s : string) : bool :=
  match s with
  | "" => true
  | String c s' => isspace c && all_space s'
  end.

(** The first and the last character of a string are not white
    space. *)
Definition starts_nonspace (s : string) : bool :=
  match s with
  | "" => true
  | String c _ => negb (isspace c)
  end.

Fixpoint ends_nonspace (s : string) : bool :=
  match s with
  | "" => true
  | String c s' =>
      match s' with
      | "" => negb (isspace c)
      | String _ _ => ends_nonspace s'
      end
  end.

(** [v] is [raw] without the white space at its two ends. *)
Definition trimmed_of (raw v : string) : Prop :=
  exists pre post,
    raw = pre +:+ v +:+ post
    /\ all_space pre = true /\ all_space post = true
    /\ starts_nonspace v = true /\ ends_nonspace v = true.

(** Six lines that give every value as the dictionary holds it. *)
Definition untrimmed_report (meminfo : gmap string string) : string :=
  "MemTotal: " +:+ dict_get meminfo "MemTotal" "" +:+ nl
  +:+ "MemFree: " +:+ dict_get meminfo "MemFree" "" +:+ nl
  +:+ "Buffers: " +:+ dict_get meminfo "Buffers" "" +:+ nl
  +:+ "Cached: " +:+ dict_get meminfo "Cached" "" +:+ nl
  +:+ "SwapTotal: " +:+ dict_get meminfo "SwapTotal" "" +:+ nl
  +:+ "SwapFree: " +:+ dict_get meminfo "SwapFree" "" +:+ nl.

(** A disk whose source file is the line [MemTotal:   123 kB]. *)
Definition sample_text : string := "MemTotal:   123 kB" +:+ nl.
Definition sample_bytes : list byte := list_byte_of_string sample_text.
Definition sample_disk : Disk :=
  mkDisk {[ meminfo_path := sample_bytes ]} latin1 "".
Definition sample_dict : gmap string string := {[ "MemTotal" := "   123 kB" ]}.

(** A disk whose source file holds a byte that [ascii] cannot decode. *)
Definition undecodable_bytes : list byte :=
  list_byte_of_string "MemTotal: " ++ [xff; x0a].
Definition undecodable_disk : Disk :=
  mkDisk {[ meminfo_path := undecodable_bytes ]} ascii_codec "".

End MemAnalyze.

(** * Properties *)

(** ** Strings *)

Module StrFacts.

Lemma app_cons x (a b : string) : String x a +:+ b = String x (a +:+ b).
Proof. reflexivity. Qed.

Lemma app_nil_l (b : string) : "" +:+ b = b.
Proof. reflexivity. Qed.

Ltac sapp := rewrite ?app_cons, ?app_nil_l.

Lemma app_assoc (a b c : string) : (a +:+ b) +:+ c = a +:+ b +:+ c.
Proof. induction a as [|x a IH]; sapp; [reflexivity|]. f_equal. exact IH. Qed.

Lemma app_nil_r (a : string) : a +:+ "" = a.
Proof. induction a as [|x a IH]; sapp; [reflexivity|]. f_equal. exact IH. Qed.

Lemma count_app c (a b : string) : count c (a +:+ b) = (count c a + count c b)%nat.
Proof. induction a as [|x a IH]; sapp; simpl; [reflexivity|]. rewrite IH. lia. Qed.

(** [split] never returns the empty list. *)
Lemma split_nonempty sep s : split sep s <> [].
Proof.
  destruct s as [|c s]; simpl; [discriminate|].
  destruct (Ascii.eqb c sep); [discriminate|].
  destruct (split sep s); discriminate.
Qed.

(** One piece more than there are separators. *)
Lemma split_length sep s : length (split sep s) = S (count sep s).
Proof.
  induction s as [|c s IH]; simpl; [reflexivity|].
  destruct (Ascii.eqb c sep); simpl; [rewrite IH; reflexivity|].
  destruct (split sep s); simpl in *; lia.
Qed.

Lemma split_none sep s : count sep s = O -> split sep s = [s].
Proof.
  induction s as [|c s IH]; simpl; [reflexivity|].
  destruct (Ascii.eqb c sep); simpl; [discriminate|].
  intros H. rewrite IH by assumption. reflexivity.
Qed.

Lemma split_app sep a rest :
  count sep a = O ->
  split sep (a +:+ String sep rest) = a :: split sep rest.
Proof.
  induction a as [|c a IH]; sapp; simpl.
  - intros _. rewrite Ascii.eqb_refl. reflexivity.
  - destruct (Ascii.eqb c sep); simpl; [discriminate|].
    intros H. rewrite IH by assumption. reflexivity.
Qed.

(** A string of white space only. *)
Definition blank (s : string) : Prop := lstrip s = "".

Lemma blank_app a b : blank a -> blank b -> blank (a +:+ b).
Proof.
  unfold blank. induction a as [|c a IH]; sapp; simpl; [auto|].
  destruct (isspace c); [auto|discriminate].
Qed.

Lemma lstrip_blank_app a b : blank a -> lstrip (a +:+ b) = lstrip b.
Proof.
  unfold blank. induction a as [|c a IH]; sapp; simpl; [auto|].
  destruct (isspace c); [auto|discriminate].
Qed.

Lemma int_of_str_of_int n : int_of_str (str_of_int n) = Some n.
Proof.
  unfold int_of_str, str_of_int.
  rewrite DecimalString.NilZero.isi.
  - cbn. rewrite DecimalZ.of_to. reflexivity.
  - destruct n; cbn; try discriminate. intros [= H].
    exact (DecimalPos.Unsigned.to_uint_nonnil _ H).
  - destruct n; cbn; try discriminate. intros [= H].
    exact (DecimalPos.Unsigned.to_uint_nonnil _ H).
Qed.

End StrFacts.

(** ** Binary64 arithmetic on block counts *)

Module FloatFacts.

(** The number of binary digits of a positive number. *)
Lemma digits2_size p : digits2_pos p = Pos.size p.
Proof. induction p as [p IH|p IH|]; simpl; congruence. Qed.

Lemma Zdigits2_log2 m : 0 < m -> Zdigits2 m = Z.log2 m + 1.
Proof.
  destruct m as [|p|p]; try lia. intros _. simpl.
  destruct p as [p|p|]; simpl; rewrite ?digits2_size; lia.
Qed.

Lemma Zdigits2_mul_pow2 m k :
  0 < m -> 0 <= k -> Zdigits2 (m * 2 ^ k) = Zdigits2 m + k.
Proof.
  intros Hm Hk. rewrite !Zdigits2_log2 by nia.
  rewrite Z.log2_mul_pow2 by lia. lia.
Qed.

Lemma Zdigits2_bounds m : 0 < m -> 2 ^ (Zdigits2 m - 1) <= m < 2 ^ Zdigits2 m.
Proof.
  intros Hm. rewrite Zdigits2_log2 by assumption.
  pose proof (Z.log2_spec m Hm) as H.
  replace (Z.log2 m + 1 - 1) with (Z.log2 m) by lia.
  replace (Z.log2 m + 1) with (Z.succ (Z.log2 m)) by lia. exact H.
Qed.

Lemma Zdigits2_unique m d : 2 ^ (d - 1) <= m < 2 ^ d -> 0 < d -> Zdigits2 m = d.
Proof.
  intros H Hd. assert (0 < m) by (pose proof (Z.pow_pos_nonneg 2 (d - 1)); lia).
  rewrite Zdigits2_log2 by assumption.
  rewrite (Z.log2_unique m (d - 1)); [lia|lia|].
  replace (Z.succ (d - 1)) with d by lia. exact H.
Qed.

(** Shifting right, one bit after the other. *)
Lemma shr_1_div2 m r s :
  0 <= m -> shr_1 (Build_shr_record m r s) = Build_shr_record (Z.div2 m) (Z.odd m) (r || s).
Proof. destruct m as [|[p|p|]|p]; try lia; intros _; reflexivity. Qed.

Lemma iter_pos_nat {A} (f : A -> A) n x :
  SpecFloat.iter_pos f n x = Nat.iter (Pos.to_nat n) f x.
Proof.
  revert x. induction n as [n IH|n IH|]; intros x; cbn [SpecFloat.iter_pos].
  - rewrite !IH, Pos2Nat.inj_xI.
    replace (S (2 * Pos.to_nat n)) with (Pos.to_nat n + (Pos.to_nat n + 1))%nat by lia.
    rewrite !Nat.iter_add. reflexivity.
  - rewrite !IH, Pos2Nat.inj_xO.
    replace (2 * Pos.to_nat n)%nat with (Pos.to_nat n + Pos.to_nat n)%nat by lia.
    rewrite Nat.iter_add. reflexivity.
  - reflexivity.
Qed.

Lemma iter_shr_1_exact k : forall m,
  0 <= m -> (2 ^ Z.of_nat k | m) ->
  Nat.iter k shr_1 (Build_shr_record m false false)
  = Build_shr_record (m / 2 ^ Z.of_nat k) false false.
Proof.
  induction k as [|k IH]; intros m Hm [q Hq].
  - simpl. rewrite Z.div_1_r. reflexivity.
  - rewrite Nat.iter_succ_r. rewrite shr_1_div2 by assumption.
    rewrite Nat2Z.inj_succ, Z.pow_succ_r in Hq by lia.
    assert (Z.odd m = false) as ->.
    { subst m. replace (q * (2 * 2 ^ Z.of_nat k)) with (2 * (q * 2 ^ Z.of_nat k)) by lia.
      apply Z.odd_even. }
    rewrite Z.div2_div. simpl orb.
    assert (m / 2 = q * 2 ^ Z.of_nat k) as Hhalf.
    { subst m. replace (q * (2 * 2 ^ Z.of_nat k)) with ((q * 2 ^ Z.of_nat k) * 2) by lia.
      apply Z.div_mul. lia. }
    rewrite IH.
    + f_equal. rewrite Nat2Z.inj_succ, Z.pow_succ_r by lia.
      rewrite <- Z.div_div by lia. reflexivity.
    + rewrite Hhalf. assert (0 < 2 ^ Z.of_nat k) by (apply Z.pow_pos_nonneg; lia). nia.
    + rewrite Hhalf. exists q. reflexivity.
Qed.

Lemma shr_exact m e n :
  0 <= m -> 0 <= n -> (2 ^ n | m) ->
  shr (Build_shr_record m false false) e n
  = (Build_shr_record (m / 2 ^ n) false false, e + n).
Proof.
  intros Hm Hn Hdiv. unfold shr. destruct n as [|p|p]; try lia.
  - rewrite Z.div_1_r, Z.add_0_r. reflexivity.
  - rewrite iter_pos_nat. rewrite iter_shr_1_exact.
    + rewrite positive_nat_Z. reflexivity.
    + assumption.
    + rewrite positive_nat_Z. assumption.
Qed.

(** The exponent of a binary64 number with [d + e] digits before the
    point, away from the subnormal range. *)
Lemma fexp_normal x : -1021 <= x -> fexp prec emax x = x - 53.
Proof. unfold fexp, emin, prec, emax. lia. Qed.

(** Rounding a number whose low bits are all zero only drops them. *)
Lemma binary_round_aux_exact m e :
  0 < m ->
  53 <= Zdigits2 m ->
  (2 ^ (Zdigits2 m - 53) | m) ->
  -1021 <= Zdigits2 m + e ->
  e + (Zdigits2 m - 53) <= 971 ->
  binary_round_aux prec emax false m e loc_Exact
  = S754_finite false (Z.to_pos (m / 2 ^ (Zdigits2 m - 53))) (e + (Zdigits2 m - 53)).
Proof.
  intros Hm Hd Hdiv Hlo Hhi.
  set (n := Zdigits2 m - 53) in *.
  assert (0 < 2 ^ n) as Hpow by (apply Z.pow_pos_nonneg; lia).
  assert (m = m / 2 ^ n * 2 ^ n) as Hm'.
  { destruct Hdiv as [q Hq]. rewrite Hq at 2. rewrite Z.div_mul by lia. exact Hq. }
  assert (0 < m / 2 ^ n) as Hq by nia.
  assert (Zdigits2 (m / 2 ^ n) = 53) as Hd'.
  { pose proof (Zdigits2_mul_pow2 (m / 2 ^ n) n Hq ltac:(lia)) as H.
    rewrite <- Hm' in H. lia. }
  unfold binary_round_aux, shr_fexp. cbn [shr_record_of_loc].
  rewrite fexp_normal by lia.
  replace (Zdigits2 m + e - 53 - e) with n by lia.
  rewrite shr_exact by (assumption || lia).
  cbn [shr_m loc_of_shr_record round_nearest_even].
  rewrite Hd'. rewrite fexp_normal by lia.
  replace (53 + (e + n) - 53 - (e + n)) with 0 by lia.
  cbn [shr shr_m].
  destruct (m / 2 ^ n) as [|q|q] eqn:Hmq; try lia.
  assert ((e + n <=? emax - prec) = true) as ->.
  { apply Z.leb_le. unfold emax, prec. lia. }
  reflexivity.
Qed.

(** Aligning a mantissa to a smaller exponent multiplies it by a power
    of two; aligning to a larger one does nothing. *)
Lemma nat_iter_xO k mx : Zpos (Nat.iter k xO mx) = Zpos mx * 2 ^ Z.of_nat k.
Proof.
  induction k as [|k IH].
  - simpl. lia.
  - rewrite Nat2Z.inj_succ, Z.pow_succ_r by lia.
    change (Nat.iter (S k) xO mx) with (xO (Nat.iter k xO mx)).
    rewrite Pos2Z.inj_xO, IH. lia.
Qed.

Lemma pos_iter_xO d mx : Zpos (Pos.iter xO mx d) = Zpos mx * 2 ^ Zpos d.
Proof.
  rewrite Pos2Nat.inj_iter.
  change (nat_rect _ mx (fun _ => xO) (Pos.to_nat d)) with (Nat.iter (Pos.to_nat d) xO mx).
  rewrite nat_iter_xO, positive_nat_Z. reflexivity.
Qed.

Lemma shl_align_value mx ex ez :
  ez <= ex -> Zpos (shl_align mx ex ez).1 = Zpos mx * 2 ^ (ex - ez).
Proof.
  intros H. unfold shl_align. destruct (ez - ex) as [|d|d] eqn:Hd; try lia.
  - replace (ex - ez) with 0 by lia. cbn [fst]. lia.
  - cbn [fst]. rewrite pos_iter_xO. f_equal. f_equal. lia.
Qed.

Lemma shl_align_noop mx ex ex' : ex <= ex' -> shl_align mx ex ex' = (mx, ex).
Proof.
  intros H. unfold shl_align. destruct (ex' - ex) as [|d|d] eqn:Hd; try lia; reflexivity.
Qed.

Lemma div_eucl_pair a b : Z.div_eucl a b = (a / b, a mod b).
Proof. unfold Z.div, Z.modulo. destruct (Z.div_eucl a b). reflexivity. Qed.

Section Blocks.
Variable p : positive.
Let sz : Z := Zpos p.
Let D : Z := Zdigits2 sz.
Let Dq : Z := Zdigits2 (sz + 512).

Hypothesis sz_lo : 512 <= sz.
Hypothesis sz_hi : sz + 512 < 2 ^ 53.

Lemma D_range : 10 <= D <= 53.
Proof.
  pose proof (Zdigits2_bounds sz ltac:(unfold sz; lia)) as [Hlo Hhi]. fold D in Hlo, Hhi.
  assert (0 < D) by (unfold D, sz; simpl; lia).
  split.
  - destruct (Z_lt_le_dec D 10) as [Hlt|]; [|assumption].
    assert (2 ^ D <= 2 ^ 9) by (apply Z.pow_le_mono_r; lia).
    change (2 ^ 9) with 512 in *. lia.
  - destruct (Z_lt_le_dec 53 D) as [Hlt|]; [|assumption].
    assert (2 ^ 53 <= 2 ^ (D - 1)) by (apply Z.pow_le_mono_r; lia). lia.
Qed.

Lemma Dq_range : 10 <= Dq <= 53.
Proof.
  pose proof (Zdigits2_bounds (sz + 512) ltac:(unfold sz; lia)) as [Hlo Hhi].
  fold Dq in Hlo, Hhi.
  assert (0 < Dq) by (unfold Dq, sz; simpl; lia).
  split.
  - destruct (Z_lt_le_dec Dq 10) as [Hlt|]; [|assumption].
    assert (2 ^ Dq <= 2 ^ 9) by (apply Z.pow_le_mono_r; lia).
    change (2 ^ 9) with 512 in *. lia.
  - destruct (Z_lt_le_dec 53 Dq) as [Hlt|]; [|assumption].
    assert (2 ^ 53 <= 2 ^ (Dq - 1)) by (apply Z.pow_le_mono_r; lia). lia.
Qed.

(** Line 13: [sz/512] is exact. *)
Lemma div_core_512 :
  SFdiv_core_binary prec emax sz 0 512 0 = (sz * 2 ^ (54 - D), D - 63, loc_Exact).
Proof.
  pose proof D_range as HD.
  unfold SFdiv_core_binary. change (Zdigits2 512) with 10. fold D.
  rewrite fexp_normal by lia.
  replace (Z.min (D + 0 - (10 + 0) - 53) (0 - 0)) with (D - 63) by lia.
  replace (0 - 0 - (D - 63)) with (63 - D) by lia.
  assert (match 63 - D with
          | 0 => sz
          | Z.pos _ => Z.shiftl sz (63 - D)
          | Z.neg _ => 0
          end = sz * 2 ^ (54 - D) * 512) as ->.
  { destruct (63 - D) as [|s|s] eqn:Hs; try lia.
    rewrite Z.shiftl_mul_pow2 by lia. rewrite <- Hs.
    replace (63 - D) with ((54 - D) + 9) by lia.
    rewrite Z.pow_add_r by lia. change (2 ^ 9) with 512. lia. }
  rewrite div_eucl_pair, Z.div_mul, Z.mod_mul by lia.
  reflexivity.
Qed.

Lemma true_div_512 :
  int_true_div sz 512
  = Ok (S754_finite false (Z.to_pos (sz * 2 ^ (53 - D))) (D - 62)).
Proof.
  pose proof D_range as HD.
  assert (0 < 2 ^ (54 - D)) as Hpow by (apply Z.pow_pos_nonneg; lia).
  assert (Zdigits2 (sz * 2 ^ (54 - D)) = 54) as Hdig.
  { rewrite Zdigits2_mul_pow2 by (unfold sz; lia). fold D. lia. }
  unfold int_true_div. change (512 =? 0) with false. cbv iota.
  unfold sz at 1. cbn [exact_of_int SFdiv]. fold sz. rewrite div_core_512.
  cbn [xorb]. rewrite binary_round_aux_exact; rewrite ?Hdig; try lia;
    try (unfold sz in *; nia).
  - replace (D - 63 + (54 - 53)) with (D - 62) by lia.
    replace (sz * 2 ^ (54 - D) / 2 ^ (54 - 53)) with (sz * 2 ^ (53 - D)); [reflexivity|].
    replace (54 - D) with ((53 - D) + 1) by lia.
    rewrite Z.pow_add_r by lia. change (54 - 53) with 1.
    rewrite Z.mul_assoc, Z.div_mul by lia. reflexivity.
  - exists (sz * 2 ^ (53 - D)). replace (54 - D) with ((53 - D) + 1) by lia.
    rewrite Z.pow_add_r by lia. change (54 - 53) with 1. lia.
Qed.

(** Line 15: [sb += 1] is exact as long as the sum has 53 digits. *)
Lemma one_float : float_of_int 1 = Ok (S754_finite false 4503599627370496 (-52)).
Proof. vm_compute. reflexivity. Qed.

Lemma add_one_512 :
  float_add_int (S754_finite false (Z.to_pos (sz * 2 ^ (53 - D))) (D - 62)) 1
  = Ok (S754_finite false (Z.to_pos ((sz + 512) * 2 ^ (53 - Dq))) (Dq - 62)).
Proof.
  pose proof D_range as HD. pose proof Dq_range as HDq.
  assert (0 < 2 ^ (53 - D)) as Hpow by (apply Z.pow_pos_nonneg; lia).
  assert (0 < 2 ^ (53 - Dq)) as Hpowq by (apply Z.pow_pos_nonneg; lia).
  assert (0 < sz) as Hsz by (unfold sz; lia).
  unfold float_add_int. rewrite one_float. f_equal. cbn [SFadd cond_Zopp].
  replace (Z.min (D - 62) (-52)) with (-52) by lia.
  rewrite !shl_align_value by lia.
  rewrite Z2Pos.id by nia.
  assert (sz * 2 ^ (53 - D) * 2 ^ (D - 62 - -52) + 4503599627370496 * 2 ^ (-52 - -52)
          = (sz + 512) * 2 ^ 43) as ->.
  { replace (D - 62 - -52) with (D - 10) by lia.
    rewrite <- Z.mul_assoc, <- Z.pow_add_r by lia.
    replace (53 - D + (D - 10)) with 43 by lia.
    change (2 ^ (-52 - -52)) with 1. change (2 ^ 43) with 8796093022208. lia. }
  assert (Zdigits2 ((sz + 512) * 2 ^ 43) = Dq + 43) as Hdig.
  { rewrite Zdigits2_mul_pow2 by lia. reflexivity. }
  destruct ((sz + 512) * 2 ^ 43) as [|m|m] eqn:Hm; try lia.
  cbn [binary_normalize]. unfold binary_round.
  change (Z.pos (digits2_pos m)) with (Zdigits2 (Z.pos m)). rewrite Hdig.
  rewrite fexp_normal by lia. rewrite shl_align_noop by lia.
  rewrite binary_round_aux_exact; rewrite ?Hdig; try lia.
  - replace (-52 + (Dq + 43 - 53)) with (Dq - 62) by lia.
    replace (Z.pos m / 2 ^ (Dq + 43 - 53)) with ((sz + 512) * 2 ^ (53 - Dq)); [reflexivity|].
    rewrite <- Hm. replace 43 with ((53 - Dq) + (Dq + 43 - 53)) at 1 by lia.
    rewrite Z.pow_add_r by lia. rewrite Z.mul_assoc, Z.div_mul; [reflexivity|].
    apply Z.pow_nonzero; lia.
  - exists ((sz + 512) * 2 ^ (53 - Dq)). rewrite <- Hm.
    replace 43 with ((53 - Dq) + (Dq + 43 - 53)) at 1 by lia.
    rewrite Z.pow_add_r by lia. lia.
Qed.

End Blocks.

(** Line 16: [%d] drops the fraction. *)
Lemma int_of_float_scaled q d :
  0 < q -> 10 <= d <= 53 ->
  int_of_float (S754_finite false (Z.to_pos (q * 2 ^ (53 - d))) (d - 62)) = Ok (q / 512).
Proof.
  intros Hq Hd. assert (0 < 2 ^ (53 - d)) as Hpow by (apply Z.pow_pos_nonneg; lia).
  unfold int_of_float. destruct (d - 62) as [|k|k] eqn:Hk; try lia.
  rewrite Z.shiftr_div_pow2 by lia. rewrite Z2Pos.id by nia.
  replace (Z.pos k) with (9 + (53 - d)) by lia.
  rewrite Z.pow_add_r by lia. change (2 ^ 9) with 512.
  rewrite Z.div_mul_cancel_r by lia. reflexivity.
Qed.

(** Over this range the binary64 operations of lines 13-16 are exact
    and the message carries the ceiling of [sz/512]. *)
Lemma reported_blocks_exact sz :
  512 <= sz -> sz + 512 < 2 ^ 53 ->
  Stamp.reported_blocks sz = Ok (Stamp.ceil_div sz 512).
Proof.
  intros Hlo Hhi. destruct sz as [|p|p]; try lia.
  unfold Stamp.reported_blocks, Stamp.sb, Stamp.ceil_div.
  rewrite (true_div_512 p Hlo Hhi).
  destruct (Z.eqb_spec (Z.pos p mod 512) 0) as [Hmod|Hmod]; cbn [negb].
  - rewrite int_of_float_scaled by (lia || apply (D_range p Hlo Hhi)).
    f_equal. Z.div_mod_to_equations. lia.
  - rewrite (add_one_512 p Hlo Hhi).
    rewrite int_of_float_scaled by (lia || apply (Dq_range p Hlo Hhi)).
    f_equal. Z.div_mod_to_equations. lia.
Qed.

End FloatFacts.

(** ** The boot-sector finisher *)

Module StampSpec.
Import Stamp.

Lemma to_N_eq (b c : byte) : Byte.to_N b = Byte.to_N c -> b = c.
Proof.
  intros H. apply (f_equal Byte.of_N) in H.
  rewrite !Byte.of_to_N in H. congruence.
Qed.

Lemma len_app {A} (l k : list A) : len (l ++ k) = len l + len k.
Proof. unfold len. rewrite length_app. lia. Qed.

Lemma len_zeros n : 0 <= n -> len (zeros n) = n.
Proof. intros Hn. unfold len, zeros. rewrite length_replicate. lia. Qed.

Lemma len_nonneg {A} (l : list A) : 0 <= len l.
Proof. unfold len. lia. Qed.

(** The script, one case per way it can end before the signature
    check. *)
Lemma stamp_unfold argv fs :
  stamp argv fs =
    match argv !! 1%nat with
    | None => (Raise (IndexError "list index out of range"), fs)
    | Some fn =>
        match fs !! fn with
        | None => (Raise (OSError fn), fs)
        | Some data =>
            if left (len data) <? 0 then
              (match size_message (len data) with
               | Ok s => Raise (ValueError s)
               | Raise e => Raise e
               end, fs)
            else
              check_sig (take 512 (padded data)) (<[fn := padded data]> fs)
        end
    end.
Proof.
  unfold stamp, sys_argv, list_index, bind.
  destruct (argv !! 1%nat) as [fn|]; [|reflexivity].
  cbn. unfold getsize.
  destruct (fs !! fn) as [data|] eqn:Hfn; [|reflexivity].
  destruct (left (len data) <? 0) eqn:Hleft.
  - unfold lift. destruct (size_message (len data)); reflexivity.
  - cbn. unfold read_prefix, padded. rewrite Hfn. cbn.
    rewrite lookup_insert_eq. reflexivity.
Qed.

(** The signature check on a buffer that has both offsets. *)
Lemma check_sig_full (d : list byte) fs :
  (511 < length d)%nat ->
  check_sig d fs =
    (if decide (has_boot_sig d) then Ok tt
     else Raise (ValueError sig_message), fs).
Proof.
  intros Hd.
  destruct (lookup_lt_is_Some_2 d 510) as [b0 Hb0]; [lia|].
  destruct (lookup_lt_is_Some_2 d 511) as [b1 Hb1]; [lia|].
  assert (has_boot_sig d <-> Byte.to_N b0 = 85%N /\ Byte.to_N b1 = 170%N) as Hsig.
  { unfold has_boot_sig. rewrite Hb0, Hb1. split.
    - intros [[= ->] [= ->]]. split; reflexivity.
    - intros [E0 E1]. apply (to_N_eq b0 x55) in E0.
      apply (to_N_eq b1 xaa) in E1. subst. split; reflexivity. }
  unfold check_sig, bind, index. rewrite Hb0. cbn. rewrite Hb1. cbn.
  destruct (N.eqb_spec (Byte.to_N b0) 85) as [E0|E0]; cbn;
    [destruct (N.eqb_spec (Byte.to_N b1) 170) as [E1|E1]; cbn|];
    case_decide; tauto || reflexivity.
Qed.

(** Padding a file that fits brings it to [numblocks] blocks. *)
Lemma padded_len (data : list byte) :
  len data <= 5120 -> len (padded data) = 5120.
Proof.
  intros H. pose proof (len_nonneg data). unfold padded.
  rewrite len_app, len_zeros; unfold left, numblocks; lia.
Qed.

Lemma has_boot_sig_take (d : list byte) :
  has_boot_sig (take 512 d) <-> has_boot_sig d.
Proof. unfold has_boot_sig. rewrite !lookup_take_lt by lia. reflexivity. Qed.

(** A file that fits: the script pads it and ends with the verdict
    of the signature check. *)
Lemma stamp_fits prog fn rest fs (data : list byte) :
  fs !! fn = Some data ->
  len data <= 5120 ->
  stamp (prog :: fn :: rest) fs =
    (if decide (has_boot_sig (padded data)) then Ok tt
     else Raise (ValueError sig_message), <[fn := padded data]> fs).
Proof.
  intros Hfn Hle. rewrite stamp_unfold. cbn [lookup list_lookup].
  rewrite Hfn.
  assert ((left (len data) <? 0) = false) as ->.
  { apply Z.ltb_ge. unfold left, numblocks. lia. }
  pose proof (padded_len data Hle) as Hlen.
  rewrite check_sig_full.
  - pose proof (has_boot_sig_take (padded data)) as Htake.
    repeat case_decide; tauto || reflexivity.
  - rewrite length_take. unfold len in Hlen. lia.
Qed.

(** A file that does not fit: the script raises before it opens the
    file for appending; the store is the one it started from. *)
Lemma stamp_too_big prog fn rest fs (data : list byte) :
  fs !! fn = Some data ->
  5120 < len data ->
  stamp (prog :: fn :: rest) fs =
    (match size_message (len data) with
     | Ok s => Raise (ValueError s)
     | Raise e => Raise e
     end, fs).
Proof.
  intros Hfn Hgt. rewrite stamp_unfold. cbn [lookup list_lookup].
  rewrite Hfn.
  assert ((left (len data) <? 0) = true) as ->.
  { apply Z.ltb_lt. unfold left, numblocks. lia. }
  reflexivity.
Qed.

(** Offsets at or past the end of the original file hold padding. *)
Lemma padded_lookup_zero (data : list byte) (i : nat) :
  len data <= 5120 ->
  (length data <= i)%nat ->
  Z.of_nat i < 5120 ->
  padded data !! i = Some x00.
Proof.
  intros Hle Hi Hi'. unfold padded. rewrite lookup_app_r by lia.
  apply lookup_replicate_2. unfold left, numblocks, len in *. lia.
Qed.

Lemma boot_image_len : len boot_image = 512.
Proof. reflexivity. Qed.

Lemma boot_image_sig k : has_boot_sig (boot_image ++ k).
Proof. split; reflexivity. Qed.

(** [C1] For every file of size [S <= 5120] the script leaves the
    file with exactly 5120 bytes: the original [S] bytes followed by
    [5120 - S] zero bytes.  It then ends successfully if and only if
    byte 510 of the file is [0x55] and byte 511 is [0xaa]. *)
Theorem stamp_pads_and_checks_signature prog fn rest fs (data : list byte) :
  fs !! fn = Some data ->
  len data <= 5120 ->
  exists r file,
    stamp (prog :: fn :: rest) fs = (r, <[fn := file]> fs)
    /\ len file = 5120
    /\ take (length data) file = data
    /\ drop (length data) file = replicate (Z.to_nat (5120 - len data)) x00
    /\ (r = Ok tt <-> has_boot_sig file).
Proof.
  intros Hfn Hle.
  exists (if decide (has_boot_sig (padded data)) then Ok tt
          else Raise (ValueError sig_message)), (padded data).
  split; [apply stamp_fits; assumption|].
  split; [apply padded_len; assumption|].
  split; [apply take_app_length|].
  split; [unfold padded; rewrite drop_app_length; reflexivity|].
  case_decide; split; intros; try tauto; try reflexivity; discriminate.
Qed.

Lemma stamp_pads_and_checks_signature_witness :
  ({[ "boot" := boot_image ]} : FS) !! "boot" = Some boot_image
  /\ len boot_image <= 5120
  /\ exists r file,
      stamp ["stamp.py"; "boot"] {[ "boot" := boot_image ]}
        = (r, <[ "boot" := file ]> {[ "boot" := boot_image ]})
      /\ len file = 5120
      /\ take (length boot_image) file = boot_image
      /\ drop (length boot_image) file
         = replicate (Z.to_nat (5120 - len boot_image)) x00
      /\ (r = Ok tt <-> has_boot_sig file).
Proof.
  assert (({[ "boot" := boot_image ]} : FS) !! "boot" = Some boot_image) as H1
    by apply lookup_singleton_eq.
  assert (len boot_image <= 5120) as H2 by (rewrite boot_image_len; lia).
  split; [exact H1|]. split; [exact H2|].
  exact (stamp_pads_and_checks_signature "stamp.py" "boot" [] _ _ H1 H2).
Defined.

(** [C9] When, after padding, byte 510 is not [0x55] or byte 511 is
    not [0xaa], the script raises, and the file keeps the padding:
    it is 5120 bytes long on this error path. *)
Theorem stamp_bad_signature_keeps_padding prog fn rest fs (data : list byte) :
  fs !! fn = Some data ->
  len data <= 5120 ->
  padded data !! 510%nat <> Some x55 \/ padded data !! 511%nat <> Some xaa ->
  stamp (prog :: fn :: rest) fs
    = (Raise (ValueError sig_message), <[fn := padded data]> fs)
  /\ len (padded data) = 5120
  /\ take (length data) (padded data) = data.
Proof.
  intros Hfn Hle Hbad. split; [|split].
  - rewrite (stamp_fits prog fn rest fs data Hfn Hle).
    rewrite decide_False; [reflexivity|].
    unfold has_boot_sig. tauto.
  - apply (padded_len data Hle).
  - apply take_app_length.
Qed.

Lemma stamp_bad_signature_keeps_padding_witness :
  ({[ "boot" := blank_image ]} : FS) !! "boot" = Some blank_image
  /\ len blank_image <= 5120
  /\ (padded blank_image !! 510%nat <> Some x55
      \/ padded blank_image !! 511%nat <> Some xaa)
  /\ stamp ["stamp.py"; "boot"] {[ "boot" := blank_image ]}
       = (Raise (ValueError sig_message),
          <[ "boot" := padded blank_image ]> {[ "boot" := blank_image ]})
  /\ len (padded blank_image) = 5120
  /\ take (length blank_image) (padded blank_image) = blank_image.
Proof.
  assert (({[ "boot" := blank_image ]} : FS) !! "boot" = Some blank_image) as H1
    by apply lookup_singleton_eq.
  assert (len blank_image <= 5120) as H2 by (vm_compute; discriminate).
  assert (padded blank_image !! 510%nat <> Some x55
          \/ padded blank_image !! 511%nat <> Some xaa)
    as H3 by (left; vm_compute; discriminate).
  split; [exact H1|]. split; [exact H2|]. split; [exact H3|].
  exact (stamp_bad_signature_keeps_padding "stamp.py" "boot" [] _ _ H1 H2 H3).
Defined.

(** [C10] A file of at most 510 bytes always fails the signature
    check, whatever it holds: after padding, offsets 510 and 511 are
    appended zero bytes. *)
Theorem stamp_short_file_fails_signature prog fn rest fs (data : list byte) :
  fs !! fn = Some data ->
  len data <= 510 ->
  padded data !! 510%nat = Some x00
  /\ padded data !! 511%nat = Some x00
  /\ stamp (prog :: fn :: rest) fs
       = (Raise (ValueError sig_message), <[fn := padded data]> fs).
Proof.
  intros Hfn Hle.
  assert (len data <= 5120) as Hle' by lia.
  assert (padded data !! 510%nat = Some x00) as H510.
  { apply (padded_lookup_zero data 510 Hle'); unfold len in Hle; lia. }
  assert (padded data !! 511%nat = Some x00) as H511.
  { apply (padded_lookup_zero data 511 Hle'); unfold len in Hle; lia. }
  split; [exact H510|]. split; [exact H511|].
  rewrite (stamp_fits prog fn rest fs data Hfn Hle').
  rewrite decide_False; [reflexivity|].
  unfold has_boot_sig. rewrite H510. intros [[=] _].
Qed.

Lemma stamp_short_file_fails_signature_witness :
  ({[ "boot" := [x55; xaa] ]} : FS) !! "boot" = Some [x55; xaa]
  /\ len [x55; xaa] <= 510
  /\ padded [x55; xaa] !! 510%nat = Some x00
  /\ padded [x55; xaa] !! 511%nat = Some x00
  /\ stamp ["stamp.py"; "boot"] {[ "boot" := [x55; xaa] ]}
       = (Raise (ValueError sig_message),
          <[ "boot" := padded [x55; xaa] ]> {[ "boot" := [x55; xaa] ]}).
Proof.
  assert (({[ "boot" := [x55; xaa] ]} : FS) !! "boot" = Some [x55; xaa]) as H1
    by apply lookup_singleton_eq.
  assert (len [x55; xaa] <= 510) as H2 by (vm_compute; discriminate).
  split; [exact H1|]. split; [exact H2|].
  exact (stamp_short_file_fails_signature "stamp.py" "boot" [] _ _ H1 H2).
Defined.

(** *** Running the script a second time *)

(** A successful run leaves a file of exactly [numblocks] blocks
    that carries the signature. *)
Lemma stamp_ok_inv argv fs fs1 :
  stamp argv fs = (Ok tt, fs1) ->
  exists fn data,
    argv !! 1%nat = Some fn
    /\ fs !! fn = Some data
    /\ len data <= 5120
    /\ has_boot_sig (padded data)
    /\ fs1 = <[fn := padded data]> fs.
Proof.
  rewrite stamp_unfold.
  destruct (argv !! 1%nat) as [fn|]; [|discriminate].
  destruct (fs !! fn) as [data|] eqn:Hfn; [|discriminate].
  destruct (Z.ltb_spec (left (len data)) 0) as [Hlt|Hge].
  { destruct (size_message (len data)); discriminate. }
  assert (len data <= 5120) as Hle by (unfold left, numblocks in Hge; lia).
  pose proof (padded_len data Hle) as Hlen.
  rewrite check_sig_full by (rewrite length_take; unfold len in Hlen; lia).
  case_decide as Hsig; [|discriminate].
  intros [= <-]. exists fn, data.
  rewrite has_boot_sig_take in Hsig. auto.
Qed.

Lemma padded_full (data : list byte) : len data = 5120 -> padded data = data.
Proof.
  intros H. unfold padded, left, numblocks. rewrite H. cbn. apply app_nil_r.
Qed.

(** The files of [argv]: an argument list that names [fn]. *)
Lemma argv_cons (argv : list string) fn :
  argv !! 1%nat = Some fn -> exists prog rest, argv = prog :: fn :: rest.
Proof.
  destruct argv as [|prog [|fn' rest]]; cbn; try discriminate.
  intros [= ->]. eauto.
Qed.

(** [C5], as the claim states it, fails: on a bootable one-block
    image the first run succeeds and leaves 5120 bytes, and the
    second run computes [left = 0], which is not negative, appends
    nothing and succeeds again. *)
Lemma stamp_second_run_does_not_fail :
  stamp ["stamp.py"; "boot"] {[ "boot" := boot_image ]}
    = (Ok tt, {[ "boot" := stamped_image ]})
  /\ len stamped_image = 5120
  /\ left (len stamped_image) = 0
  /\ ~ left (len stamped_image) < 0
  /\ stamp ["stamp.py"; "boot"] {[ "boot" := stamped_image ]}
    = (Ok tt, {[ "boot" := stamped_image ]}).
Proof.
  assert (len stamped_image = 5120) as Hlen by reflexivity.
  split; [|split; [exact Hlen|split; [|split]]].
  - rewrite (stamp_fits "stamp.py" "boot" (@nil string) _ boot_image).
    + rewrite decide_True by apply boot_image_sig.
      rewrite insert_singleton_eq. reflexivity.
    + apply lookup_singleton_eq.
    + rewrite boot_image_len. lia.
  - rewrite Hlen. reflexivity.
  - rewrite Hlen. unfold left, numblocks. lia.
  - rewrite (stamp_fits "stamp.py" "boot" (@nil string) _ stamped_image).
    + rewrite (padded_full stamped_image Hlen).
      rewrite decide_True by apply boot_image_sig.
      rewrite insert_singleton_eq. reflexivity.
    + apply lookup_singleton_eq.
    + rewrite Hlen. lia.
Qed.

(** [C5], amended: the script is idempotent after a successful run.
    The second run finds the file at exactly 5120 bytes, computes
    [left = 0], appends nothing, passes the signature check again
    and leaves the store as the first run left it. *)
Theorem stamp_idempotent_after_success argv fs fs1 :
  stamp argv fs = (Ok tt, fs1) ->
  stamp argv fs1 = (Ok tt, fs1)
  /\ exists fn file,
      argv !! 1%nat = Some fn
      /\ fs1 !! fn = Some file
      /\ len file = 5120
      /\ left (len file) = 0.
Proof.
  intros Hrun.
  destruct (stamp_ok_inv argv fs fs1 Hrun)
    as (fn & data & Hargv & Hfn & Hle & Hsig & ->).
  pose proof (padded_len data Hle) as Hlen.
  destruct (argv_cons argv fn Hargv) as (prog & rest & ->).
  split.
  - rewrite (stamp_fits prog fn rest _ (padded data)).
    + rewrite (padded_full (padded data) Hlen).
      rewrite decide_True by assumption.
      rewrite insert_insert_eq. reflexivity.
    + apply lookup_insert_eq.
    + lia.
  - exists fn, (padded data). split; [assumption|].
    split; [apply lookup_insert_eq|]. split; [assumption|].
    rewrite Hlen. reflexivity.
Qed.

Lemma stamp_idempotent_after_success_witness :
  stamp ["stamp.py"; "boot"] {[ "boot" := boot_image ]}
    = (Ok tt, {[ "boot" := stamped_image ]})
  /\ stamp ["stamp.py"; "boot"] {[ "boot" := stamped_image ]}
     = (Ok tt, {[ "boot" := stamped_image ]})
  /\ exists fn file,
      ["stamp.py"; "boot"] !! 1%nat = Some fn
      /\ ({[ "boot" := stamped_image ]} : FS) !! fn = Some file
      /\ len file = 5120
      /\ left (len file) = 0.
Proof.
  assert (stamp ["stamp.py"; "boot"] {[ "boot" := boot_image ]}
          = (Ok tt, {[ "boot" := stamped_image ]})) as H1.
  { rewrite (stamp_fits "stamp.py" "boot" (@nil string) _ boot_image).
    - rewrite decide_True by apply boot_image_sig.
      rewrite insert_singleton_eq. reflexivity.
    - apply lookup_singleton_eq.
    - rewrite boot_image_len. lia. }
  split; [exact H1|].
  exact (stamp_idempotent_after_success _ _ _ H1).
Defined.

(** *** The size error *)

(** [ceil_div a b] is the least number of blocks of [b] bytes that
    hold [a] bytes. *)
Lemma ceil_div_spec a b :
  0 < b -> a <= ceil_div a b * b /\ (ceil_div a b - 1) * b < a.
Proof. intros Hb. unfold ceil_div. Z.div_mod_to_equations. nia. Qed.

(** The 511 sizes from [2^53 - 512] to [2^53 - 2]: the sum of line 15
    is rounded there, and its integer part is still the ceiling. *)
Lemma reports_ceiling_top :
  forallb (fun k => reports_ceiling (2 ^ 53 - 512 + Z.of_nat k)) (seq 0 511) = true.
Proof. vm_compute. reflexivity. Qed.

(** Below [2^53 - 1] bytes the message carries the ceiling of
    [sz/512]. *)
Lemma reported_blocks_ceiling sz :
  512 <= sz < 2 ^ 53 - 1 -> reported_blocks sz = Ok (ceil_div sz 512).
Proof.
  intros [Hlo Hhi].
  destruct (Z_lt_le_dec (sz + 512) (2 ^ 53)) as [Hin|Hout].
  - apply FloatFacts.reported_blocks_exact; assumption.
  - pose proof reports_ceiling_top as Htop.
    rewrite List.forallb_forall in Htop.
    specialize (Htop (Z.to_nat (sz - (2 ^ 53 - 512)))).
    replace (2 ^ 53 - 512 + Z.of_nat (Z.to_nat (sz - (2 ^ 53 - 512)))) with sz in Htop by lia.
    unfold reports_ceiling in Htop.
    destruct (reported_blocks sz) as [n|e].
    + f_equal. apply Z.eqb_eq, Htop. apply in_seq. lia.
    + discriminate Htop. apply in_seq. lia.
Qed.

Lemma size_message_of_blocks sz n :
  reported_blocks sz = Ok n ->
  size_message sz
  = Ok ("boot sector is bigger than numblocks (is 10, should be "
          +:+ str_of_int n +:+ ")").
Proof.
  unfold reported_blocks, size_message, fmt_d_float.
  destruct (sb sz) as [x|e]; [|discriminate]. intros ->. reflexivity.
Qed.

(** A file of more than 5120 and less than [2^53 - 1] bytes: the
    script raises before it appends, the store is unchanged, and the
    message names the ceiling of the size over 512. *)
Lemma stamp_too_big_reports_ceiling prog fn rest fs (data : list byte) :
  fs !! fn = Some data ->
  5120 < len data < 2 ^ 53 - 1 ->
  stamp (prog :: fn :: rest) fs
  = (Raise (ValueError
       ("boot sector is bigger than numblocks (is 10, should be "
          +:+ str_of_int (ceil_div (len data) 512) +:+ ")")),
     fs).
Proof.
  intros Hfn [Hlo Hhi]. rewrite (stamp_too_big prog fn rest fs data Hfn Hlo).
  rewrite (size_message_of_blocks (len data) (ceil_div (len data) 512)).
  - reflexivity.
  - apply reported_blocks_ceiling. lia.
Qed.

Lemma huge_image_len : len huge_image = huge_size.
Proof.
  unfold len, huge_image. rewrite length_replicate.
  apply Z2Nat.id. unfold huge_size. lia.
Qed.

Lemma huge_size_message :
  size_message huge_size
  = Ok "boot sector is bigger than numblocks (is 10, should be 17592186044417)".
Proof. vm_compute. reflexivity. Qed.

(** [C3] holds up to the block count in the message.  On a file of
    [2^53 - 1] bytes the script raises before it appends and leaves
    the store untouched, but the count it reports is 17592186044417
    while the ceiling of the size over 512 is 17592186044416: line
    13 divides with [/], which in Python 3 yields a [float], and
    [sb += 1] rounds up to the next integer. *)
Theorem stamp_reports_wrong_block_count :
  stamp ["stamp.py"; "boot"] {[ "boot" := huge_image ]}
    = (Raise (ValueError
         "boot sector is bigger than numblocks (is 10, should be 17592186044417)"),
       {[ "boot" := huge_image ]})
  /\ len huge_image = 9007199254740991
  /\ reported_blocks (len huge_image) = Ok 17592186044417
  /\ ceil_div (len huge_image) 512 = 17592186044416.
Proof.
  pose proof huge_image_len as Hlen.
  split; [|split; [exact Hlen|split]].
  - rewrite (stamp_too_big "stamp.py" "boot" (@nil string) _ huge_image).
    + rewrite Hlen, huge_size_message. reflexivity.
    + apply lookup_singleton_eq.
    + rewrite Hlen. unfold huge_size. lia.
  - rewrite Hlen. vm_compute. reflexivity.
  - rewrite Hlen. vm_compute. reflexivity.
Qed.

End StampSpec.

(** ** The hex-array emitter *)

Module XxdSpec.
Import Xxd StrFacts.

Lemma put_nil w : put w "" = w.
Proof. destruct w. unfold put. cbn. rewrite app_nil_r. reflexivity. Qed.

Lemma put_put w a b : put (put w a) b = put w (a +:+ b).
Proof. unfold put. cbn. rewrite app_assoc. reflexivity. Qed.

Lemma print_end_put s e w : print_end s e w = (Ok tt, put w (s +:+ e)).
Proof. reflexivity. Qed.

Lemma print_put s w : print s w = (Ok tt, put w (s +:+ nl)).
Proof. reflexivity. Qed.

Lemma emit_entry_put i b w :
  emit_entry (i, b) w
  = (Ok tt, put w (sep_of i +:+ entry b +:+ "," +:+ end_of i)).
Proof.
  unfold emit_entry. rewrite print_end_put. unfold entry, sep_of, end_of.
  rewrite !app_assoc. reflexivity.
Qed.

(** The loop prints [entries_text] and cannot fail. *)
Lemma loop_put data : forall i w,
  for_ (enumerate_from i data) emit_entry w = (Ok tt, put w (entries_text i data)).
Proof.
  induction data as [|b rest IH]; intros i w; cbn [for_ enumerate_from entries_text].
  - rewrite put_nil. reflexivity.
  - unfold bind. rewrite emit_entry_put, IH, put_put.
    rewrite !app_assoc. reflexivity.
Qed.

(** A run on an existing file: the whole output. *)
Lemma xxd_run prog path w (data : list byte) :
  files w !! path = Some data ->
  xxd [prog; path] w
  = (Ok tt,
     mkWorld (files w) (stdout w +:+ output_text (c_name path) data)
       (stderr w) (opened w ++ [path])).
Proof.
  intros Hfile. unfold xxd, bind.
  change (negb (len [prog; path] =? 2)) with false.
  cbn [ret list_index lookup list_lookup]. unfold read_bytes. rewrite Hfile.
  rewrite print_put. unfold enumerate. rewrite loop_put.
  assert (forall w', (if negb (len data mod 12 =? 0) then print "" else ret tt) w'
            = (Ok tt, put w' (if negb (len data mod 12 =? 0) then nl else ""))) as ->.
  { intros w'. destruct (negb _); [reflexivity|rewrite put_nil; reflexivity]. }
  rewrite !print_put, !put_put. unfold put, output_text, array_body, length_line. cbn [files stdout stderr opened].
  rewrite !app_assoc. reflexivity.
Qed.
(** *** The entries, read back from the text *)

Lemma entry_is_hex b : is_hex_entry (entry b) = true.
Proof. destruct b; vm_compute; reflexivity. Qed.

Lemma entry_value_ok b : entry_value (entry b) = Some (Byte.to_N b).
Proof. destruct b; vm_compute; reflexivity. Qed.

Lemma entry_no_comma b : count "," (entry b) = O.
Proof. destruct b; vm_compute; reflexivity. Qed.

Lemma strip_entry_self b : strip (entry b) = entry b.
Proof. destruct b; vm_compute; reflexivity. Qed.

Lemma strip_blank_entry pre b : blank pre -> strip (pre +:+ entry b) = entry b.
Proof.
  intros Hpre. unfold strip. rewrite lstrip_blank_app by assumption.
  apply strip_entry_self.
Qed.

Lemma sep_blank i : blank (sep_of i) /\ count "," (sep_of i) = O.
Proof. unfold sep_of. destruct (_ =? _); split; reflexivity. Qed.

Lemma end_blank i : blank (end_of i) /\ count "," (end_of i) = O.
Proof. unfold end_of. destruct (_ =? _); split; reflexivity. Qed.

Lemma removelast_cons {A} (x : A) l : l <> [] -> removelast (x :: l) = x :: removelast l.
Proof. destruct l; [congruence|reflexivity]. Qed.

(** Cutting the loop's text at the commas gives back the entries,
    whatever blank text stands before and after it. *)
Lemma entries_of_text data : forall i pre tail,
  blank pre -> count "," pre = O ->
  count "," tail = O ->
  entries_of (pre +:+ entries_text i data +:+ tail) = map entry data.
Proof.
  unfold entries_of.
  induction data as [|b rest IH]; intros i pre tail Hpre Hpre' Htail;
    cbn [entries_text map].
  - rewrite app_nil_l, split_none; [reflexivity|].
    rewrite count_app. lia.
  - destruct (sep_blank i) as [Hs Hs'], (end_blank i) as [He He'].
    replace (pre +:+ (sep_of i +:+ entry b +:+ "," +:+ end_of i
                       +:+ entries_text (i + 1) rest) +:+ tail)
      with (((pre +:+ sep_of i) +:+ entry b)
              +:+ String "," (end_of i +:+ entries_text (i + 1) rest +:+ tail))
      by (rewrite !app_assoc; reflexivity).
    rewrite split_app.
    + rewrite removelast_cons by apply split_nonempty.
      cbn [map]. rewrite IH by assumption.
      rewrite strip_blank_entry by (apply blank_app; assumption).
      reflexivity.
    + rewrite !count_app, entry_no_comma. lia.
Qed.

Lemma entries_of_body data : entries_of (array_body data) = map entry data.
Proof.
  unfold array_body.
  rewrite <- (app_nil_l (entries_text 0 data +:+ _)).
  apply entries_of_text; [reflexivity|reflexivity|].
  destruct (negb _); reflexivity.
Qed.

(** [C2] For every input of [L] bytes the output is the header line,
    the array body, the closing line and the length line; the body
    holds exactly [L] entries, each of the form [0x[0-9a-f]{2}] (and
    entry [k] is the value of byte [k]); the number on the length
    line is [L]. *)
Theorem xxd_emits_one_hex_entry_per_byte prog path w (data : list byte) :
  files w !! path = Some data ->
  xxd [prog; path] w
  = (Ok tt,
     mkWorld (files w)
       (stdout w
        +:+ "unsigned char " +:+ c_name path +:+ "[] = {" +:+ nl
        +:+ array_body data
        +:+ "};" +:+ nl
        +:+ "unsigned int " +:+ c_name path +:+ "_len = "
        +:+ str_of_int (len data) +:+ ";" +:+ nl)
       (stderr w) (opened w ++ [path]))
  /\ length (entries_of (array_body data)) = length data
  /\ Forall (fun e => is_hex_entry e = true) (entries_of (array_body data))
  /\ map entry_value (entries_of (array_body data))
     = map (fun b => Some (Byte.to_N b)) data
  /\ int_of_str (str_of_int (len data)) = Some (len data).
Proof.
  intros Hfile.
  split; [|split; [|split; [|split]]].
  - rewrite (xxd_run prog path w data Hfile).
    unfold output_text, length_line. rewrite !app_assoc. reflexivity.
  - rewrite entries_of_body. apply length_map.
  - rewrite entries_of_body. apply Forall_forall.
    intros e [b [-> _]]%list_elem_of_fmap. apply entry_is_hex.
  - rewrite entries_of_body, map_map. apply map_ext. apply entry_value_ok.
  - apply int_of_str_of_int.
Qed.

Lemma xxd_emits_one_hex_entry_per_byte_witness :
  files foo_world !! "foo.bin" = Some [x00; x01; x02]
  /\ xxd ["xxd.py"; "foo.bin"] foo_world
     = (Ok tt,
        mkWorld (files foo_world)
          (stdout foo_world
           +:+ "unsigned char " +:+ c_name "foo.bin" +:+ "[] = {" +:+ nl
           +:+ array_body [x00; x01; x02]
           +:+ "};" +:+ nl
           +:+ "unsigned int " +:+ c_name "foo.bin" +:+ "_len = "
           +:+ str_of_int (len [x00; x01; x02]) +:+ ";" +:+ nl)
          (stderr foo_world) (opened foo_world ++ ["foo.bin"]))
  /\ length (entries_of (array_body [x00; x01; x02])) = length [x00; x01; x02]
  /\ Forall (fun e => is_hex_entry e = true) (entries_of (array_body [x00; x01; x02]))
  /\ map entry_value (entries_of (array_body [x00; x01; x02]))
     = map (fun b => Some (Byte.to_N b)) [x00; x01; x02]
  /\ int_of_str (str_of_int (len [x00; x01; x02])) = Some (len [x00; x01; x02]).
Proof.
  assert (files foo_world !! "foo.bin" = Some [x00; x01; x02]) as H
    by apply lookup_singleton_eq.
  split; [exact H|].
  exact (xxd_emits_one_hex_entry_per_byte "xxd.py" "foo.bin" foo_world _ H).
Defined.

(** [C6], as the claim states it, fails: the entries of a line are
    not separated by a space.  For the three bytes of the example
    the output is not the claimed text, and the claimed rendering of
    the entries does not occur in it at all. *)
Lemma xxd_foo_bin_has_no_space_after_comma :
  stdout (snd (xxd ["xxd.py"; "foo.bin"] foo_world)) <> claimed_foo_text
  /\ contains " 0x00, 0x01, 0x02,"
       (stdout (snd (xxd ["xxd.py"; "foo.bin"] foo_world))) = false.
Proof.
  rewrite (xxd_run "xxd.py" "foo.bin" foo_world [x00; x01; x02])
    by apply lookup_singleton_eq.
  cbn [snd stdout]. split.
  - intros H. apply (f_equal (contains " 0x00, 0x01, 0x02,")) in H.
    vm_compute in H. discriminate H.
  - vm_compute. reflexivity.
Qed.

(** [C6], amended: for the bytes [0x00, 0x01, 0x02] in a file named
    [foo.bin] the emitted text is exactly the four lines
    [unsigned char foo_bin[] = {], [ 0x00,0x01,0x02,] (one leading
    space, no space after a comma), [};] and
    [unsigned int foo_bin_len = 3;]. *)
Theorem xxd_foo_bin_text prog w :
  files w !! "foo.bin" = Some [x00; x01; x02] ->
  xxd [prog; "foo.bin"] w
  = (Ok tt,
     mkWorld (files w)
       (stdout w
        +:+ "unsigned char foo_bin[] = {" +:+ nl
        +:+ " 0x00,0x01,0x02," +:+ nl
        +:+ "};" +:+ nl
        +:+ "unsigned int foo_bin_len = 3;" +:+ nl)
       (stderr w) (opened w ++ ["foo.bin"])).
Proof.
  intros Hfile. rewrite (xxd_run prog "foo.bin" w _ Hfile). reflexivity.
Qed.

Lemma xxd_foo_bin_text_witness :
  files foo_world !! "foo.bin" = Some [x00; x01; x02]
  /\ xxd ["xxd.py"; "foo.bin"] foo_world
     = (Ok tt,
        mkWorld (files foo_world)
          (stdout foo_world
           +:+ "unsigned char foo_bin[] = {" +:+ nl
           +:+ " 0x00,0x01,0x02," +:+ nl
           +:+ "};" +:+ nl
           +:+ "unsigned int foo_bin_len = 3;" +:+ nl)
          (stderr foo_world) (opened foo_world ++ ["foo.bin"])).
Proof.
  assert (files foo_world !! "foo.bin" = Some [x00; x01; x02]) as H
    by apply lookup_singleton_eq.
  split; [exact H|].
  exact (xxd_foo_bin_text "xxd.py" foo_world H).
Defined.

(** [C8] Called with anything but exactly one file argument, the
    script writes the usage message to the standard error stream,
    exits with status 1 and opens no file; the standard output and
    the files stay as they were. *)
Theorem xxd_usage_error argv w :
  len argv <> 2 ->
  xxd argv w
  = (Raise (SystemExit 1),
     mkWorld (files w) (stdout w) (stderr w +:+ "usage: xxd.py <file>" +:+ nl)
       (opened w))
  /\ exit_status (fst (xxd argv w)) = 1
  /\ exit_status (fst (xxd argv w)) <> 0
  /\ opened (snd (xxd argv w)) = opened w.
Proof.
  intros Hargs.
  assert (xxd argv w
          = (Raise (SystemExit 1),
             mkWorld (files w) (stdout w) (stderr w +:+ "usage: xxd.py <file>" +:+ nl)
               (opened w))) as Hrun.
  { unfold xxd, bind.
    destruct (Z.eqb_spec (len argv) 2) as [E|_]; [contradiction|].
    reflexivity. }
  rewrite Hrun. cbn. repeat split; lia.
Qed.

Lemma xxd_usage_error_witness :
  len ["xxd.py"; "a.bin"; "b.bin"] <> 2
  /\ xxd ["xxd.py"; "a.bin"; "b.bin"] foo_world
     = (Raise (SystemExit 1),
        mkWorld (files foo_world) (stdout foo_world)
          (stderr foo_world +:+ "usage: xxd.py <file>" +:+ nl)
          (opened foo_world))
  /\ exit_status (fst (xxd ["xxd.py"; "a.bin"; "b.bin"] foo_world)) = 1
  /\ exit_status (fst (xxd ["xxd.py"; "a.bin"; "b.bin"] foo_world)) <> 0
  /\ opened (snd (xxd ["xxd.py"; "a.bin"; "b.bin"] foo_world)) = opened foo_world.
Proof.
  assert (len ["xxd.py"; "a.bin"; "b.bin"] <> 2) as H by (vm_compute; discriminate).
  split; [exact H|].
  exact (xxd_usage_error ["xxd.py"; "a.bin"; "b.bin"] foo_world H).
Defined.

End XxdSpec.

(** ** The meminfo reporter *)

Module MemAnalyzeSpec.
Import MemAnalyze StrFacts.

(** *** Splitting a line *)

Lemma split_one sep s :
  count sep s = 1%nat -> split sep s = [before sep s; after sep s].
Proof.
  induction s as [|a s IH]; simpl; [discriminate|].
  destruct (Ascii.eqb a sep); simpl.
  - intros [= H]. rewrite split_none by assumption. reflexivity.
  - intros H. rewrite IH by assumption. reflexivity.
Qed.

Lemma before_after sep s :
  count sep s = 1%nat -> s = before sep s +:+ String sep (after sep s).
Proof.
  induction s as [|a s IH]; simpl; [discriminate|].
  destruct (Ascii.eqb_spec a sep) as [->|Hne]; simpl.
  - intros _. reflexivity.
  - intros H. rewrite app_cons. f_equal. apply IH. assumption.
Qed.

(** Unpacking succeeds exactly on a line with one colon. *)
Lemma unpack2_split_ok s :
  count ":" s = 1%nat ->
  unpack2 (split ":" s) = Ok (before ":" s, after ":" s).
Proof. intros H. rewrite split_one by assumption. reflexivity. Qed.

Lemma unpack2_split_raise s :
  count ":" s <> 1%nat -> exists msg, unpack2 (split ":" s) = Raise (ValueError msg).
Proof.
  intros H. pose proof (split_length ":" s) as Hlen.
  destruct (split ":" s) as [|a [|b [|c l]]]; simpl in *; eauto.
  lia.
Qed.

(** Stripping removes white space only. *)
Lemma count_lstrip c s : isspace c = false -> count c (lstrip s) = count c s.
Proof.
  intros Hc. induction s as [|a s IH]; simpl; [reflexivity|].
  destruct (isspace a) eqn:Ha; [|reflexivity].
  rewrite IH. destruct (Ascii.eqb_spec a c) as [->|]; [congruence|reflexivity].
Qed.

Lemma count_rstrip c s : isspace c = false -> count c (rstrip s) = count c s.
Proof.
  intros Hc. induction s as [|a s IH]; simpl; [reflexivity|].
  destruct (rstrip s) as [|b r] eqn:Hr.
  - simpl in IH. rewrite <- IH.
    destruct (isspace a) eqn:Ha; simpl.
    + destruct (Ascii.eqb_spec a c) as [->|]; [congruence|reflexivity].
    + lia.
  - simpl. rewrite <- IH. reflexivity.
Qed.

Lemma count_strip c s : isspace c = false -> count c (strip s) = count c s.
Proof.
  intros Hc. unfold strip. rewrite count_rstrip, count_lstrip by assumption.
  reflexivity.
Qed.

(** *** The dictionary *)

Lemma build_dict_ok lines : forall m,
  Forall (fun line => count ":" line = 1%nat) lines ->
  build_dict m (map (split ":") (map strip lines))
  = Ok (fold_left (fun m kv => <[kv.1 := kv.2]> m) (map kv_of_line lines) m).
Proof.
  induction lines as [|l ls IH]; intros m Hall; simpl; [reflexivity|].
  apply Forall_cons in Hall as [Hl Hls].
  rewrite unpack2_split_ok by (rewrite count_strip; [assumption|reflexivity]).
  rewrite IH by assumption. reflexivity.
Qed.

Lemma build_dict_raise lines : forall m,
  Exists (fun line => count ":" line <> 1%nat) lines ->
  exists msg, build_dict m (map (split ":") (map strip lines)) = Raise (ValueError msg).
Proof.
  induction lines as [|l ls IH]; intros m Hex; [inversion Hex|].
  simpl. destruct (Nat.eq_dec (count ":" l) 1%nat) as [Hl|Hl].
  - rewrite unpack2_split_ok by (rewrite count_strip; [assumption|reflexivity]).
    apply IH. apply Exists_cons in Hex as [Hex|Hex]; [contradiction|assumption].
  - destruct (unpack2_split_raise (strip l)) as [msg ->]; [|eauto].
    rewrite count_strip; [assumption|reflexivity].
Qed.

Lemma one_colon_dec lines :
  Forall (fun line => count ":" line = 1%nat) lines
  \/ Exists (fun line => count ":" line <> 1%nat) lines.
Proof.
  induction lines as [|l ls [IH|IH]].
  - left. constructor.
  - destruct (Nat.eq_dec (count ":" l) 1%nat); [left|right]; constructor; assumption.
  - right. apply Exists_cons_tl. assumption.
Qed.

Lemma parse_ok text :
  Forall (fun line => count ":" line = 1%nat) (readlines text) ->
  parse_meminfo text = Ok (dict_from (map kv_of_line (readlines text))).
Proof. intros H. unfold parse_meminfo, dict_from. apply build_dict_ok, H. Qed.

Lemma parse_raise text :
  Exists (fun line => count ":" line <> 1%nat) (readlines text) ->
  exists msg, parse_meminfo text = Raise (ValueError msg).
Proof. intros H. unfold parse_meminfo. apply build_dict_raise, H. Qed.

(** *** The run *)

Lemma print_fields m w :
  for_ fields (fun field => print (field_line m field)) w
  = (Ok tt, mkWorld (files w) (stdout w +:+ report m)).
Proof.
  unfold fields, for_, bind, print, modify, ret, field_line, report.
  cbn [files stdout]. rewrite !app_assoc. reflexivity.
Qed.

Lemma mem_analyze_unfold w :
  mem_analyze w =
    match files w !! meminfo_path with
    | None => (Raise (OSError meminfo_path), w)
    | Some text =>
        match parse_meminfo (universal_newlines text) with
        | Ok m => (Ok tt, mkWorld (files w) (stdout w +:+ report m))
        | Raise e => (Raise e, w)
        end
    end.
Proof.
  unfold mem_analyze, bind, open_text.
  destruct (files w !! meminfo_path) as [text|]; [|reflexivity].
  unfold lift. destruct (parse_meminfo _) as [m|e]; [|reflexivity].
  apply print_fields.
Qed.

(** *** Line feeds *)

Lemma lstrip_app a b :
  lstrip (a +:+ b) = match lstrip a with "" => lstrip b | r => r +:+ b end.
Proof.
  induction a as [|c a IH]; sapp; simpl; [reflexivity|].
  destruct (isspace c); [exact IH|reflexivity].
Qed.

Lemma rstrip_snoc_space s c :
  isspace c = true -> rstrip (s +:+ String c "") = rstrip s.
Proof.
  intros Hc. induction s as [|a s IH]; sapp; simpl.
  - rewrite Hc. reflexivity.
  - rewrite IH. reflexivity.
Qed.

Lemma count_lstrip_le c s : (count c (lstrip s) <= count c s)%nat.
Proof.
  induction s as [|a s IH]; simpl; [lia|].
  destruct (isspace a); simpl; lia.
Qed.

Lemma count_rstrip_le c s : (count c (rstrip s) <= count c s)%nat.
Proof.
  induction s as [|a s IH]; simpl; [lia|].
  destruct (rstrip s) as [|b r]; simpl in *.
  - destruct (isspace a); simpl; lia.
  - lia.
Qed.

Lemma count_strip_le c s : (count c (strip s) <= count c s)%nat.
Proof.
  unfold strip. pose proof (count_rstrip_le c (lstrip s)).
  pose proof (count_lstrip_le c s). lia.
Qed.

Lemma count_after_le c sep s : (count c (after sep s) <= count c s)%nat.
Proof.
  induction s as [|a s IH]; simpl; [lia|].
  destruct (Ascii.eqb a sep); lia.
Qed.

(** A line of the file has no line feed but, possibly, its last
    character. *)
Definition line_shape (l : string) : Prop :=
  exists body, count LF body = O /\ (l = body \/ l = body +:+ nl).

Lemma readlines_shape s : Forall line_shape (readlines s).
Proof.
  induction s as [|c s IH]; simpl; [constructor|].
  destruct (Ascii.eqb_spec c LF) as [->|Hc].
  - constructor; [|assumption]. exists "". split; [reflexivity|]. right. reflexivity.
  - assert (line_shape (String c "")) as H0.
    { exists (String c ""). split; [|left; reflexivity].
      simpl. destruct (Ascii.eqb_spec c LF); [contradiction|reflexivity]. }
    destruct (readlines s) as [|l ls]; [constructor; [exact H0|constructor]|].
    apply Forall_cons in IH as [(body & Hb & Hl) Hls].
    constructor; [|assumption].
    exists (String c body). split.
    + simpl. destruct (Ascii.eqb_spec c LF); [contradiction|]. assumption.
    + destruct Hl as [->| ->]; [left|right]; reflexivity.
Qed.

Lemma strip_line_no_lf l : line_shape l -> count LF (strip l) = O.
Proof.
  intros (body & Hb & [->| ->]).
  - pose proof (count_strip_le LF body). lia.
  - unfold strip. rewrite lstrip_app.
    destruct (lstrip body) as [|a r] eqn:Hl; [reflexivity|].
    unfold nl. rewrite rstrip_snoc_space by reflexivity.
    rewrite <- Hl.
    pose proof (count_rstrip_le LF (lstrip body)).
    pose proof (count_lstrip_le LF body). lia.
Qed.

Lemma fold_insert_no_lf kvs : forall m : gmap string string,
  map_Forall (fun _ v => count LF v = O) m ->
  Forall (fun kv : string * string => count LF kv.2 = O) kvs ->
  map_Forall (fun _ v => count LF v = O)
    (fold_left (fun m kv => <[kv.1 := kv.2]> m) kvs m).
Proof.
  induction kvs as [|kv kvs IH]; intros m Hm Hkvs; simpl; [assumption|].
  apply Forall_cons in Hkvs as [Hkv Hkvs].
  apply IH; [|assumption]. apply map_Forall_insert_2; assumption.
Qed.

(** No value of a parsed dictionary holds a line feed. *)
Lemma parse_no_lf text m :
  parse_meminfo text = Ok m -> map_Forall (fun _ v => count LF v = O) m.
Proof.
  intros Hparse.
  destruct (one_colon_dec (readlines text)) as [Hall|Hex].
  - rewrite parse_ok in Hparse by assumption. injection Hparse as <-.
    apply fold_insert_no_lf; [apply map_Forall_empty|].
    apply Forall_map. eapply Forall_impl; [apply readlines_shape|].
    intros l Hl. cbn.
    pose proof (count_after_le LF ":" (strip l)).
    pose proof (strip_line_no_lf l Hl). lia.
  - destruct (parse_raise text Hex) as [msg Hmsg]. congruence.
Qed.

Lemma rendered_no_lf (m : gmap string string) field :
  map_Forall (fun _ v => count LF v = O) m ->
  count LF (strip (dict_get m field "")) = O.
Proof.
  intros Hm. pose proof (count_strip_le LF (dict_get m field "")) as Hle.
  unfold dict_get in *. destruct (m !! field) as [v|] eqn:Hv; cbn in *.
  - rewrite (Hm _ _ Hv) in Hle. lia.
  - reflexivity.
Qed.

Lemma report_lines (m : gmap string string) :
  map_Forall (fun _ v => count LF v = O) m -> count LF (report m) = 6%nat.
Proof.
  intros Hm. unfold report.
  rewrite !count_app, !(rendered_no_lf m _ Hm). reflexivity.
Qed.

Lemma kv_splits line : one_colon line -> splits_at_colon line.
Proof.
  unfold one_colon, splits_at_colon, kv_of_line. intros H. cbn [fst snd].
  assert (count ":" (strip line) = 1%nat) as Hs
    by (rewrite count_strip; [assumption|reflexivity]).
  pose proof (before_after ":" (strip line) Hs) as Heq.
  split; [exact Heq|].
  rewrite Heq in Hs at 1. rewrite count_app in Hs. simpl in Hs.
  split; lia.
Qed.

(** *** What [strip] removes *)

Lemma lstrip_head s :
  lstrip s = "" \/ exists c r, lstrip s = String c r /\ isspace c = false.
Proof.
  induction s as [|c s IH]; cbn [lstrip]; [auto|].
  destruct (isspace c) eqn:Hc; [exact IH|]. right. eauto.
Qed.

Lemma rstrip_head c r :
  isspace c = false -> exists r', rstrip (String c r) = String c r'.
Proof.
  intros Hc. cbn [rstrip]. destruct (rstrip r); [rewrite Hc|]; eauto.
Qed.

Lemma rstrip_idem s : rstrip (rstrip s) = rstrip s.
Proof.
  induction s as [|c s IH]; [reflexivity|].
  change (rstrip (String c s))
    with (match rstrip s with
          | "" => if isspace c then "" else String c ""
          | String a r => String c (String a r)
          end).
  destruct (rstrip s) as [|a r] eqn:Hr.
  - destruct (isspace c) eqn:Hc; [reflexivity|]. cbn [rstrip]. rewrite Hc. reflexivity.
  - change (rstrip (String c (String a r)))
      with (match rstrip (String a r) with
            | "" => if isspace c then "" else String c ""
            | String a' r' => String c (String a' r')
            end).
    rewrite IH. reflexivity.
Qed.

(** A stripped string has no white space at either end. *)
Lemma strip_stripped s : lstrip (strip s) = strip s /\ rstrip (strip s) = strip s.
Proof.
  unfold strip. split; [|apply rstrip_idem].
  destruct (lstrip_head s) as [->|(c & r & -> & Hc)]; [reflexivity|].
  destruct (rstrip_head c r Hc) as [r' ->]. cbn [lstrip]. rewrite Hc. reflexivity.
Qed.

Lemma lstrip_split s : exists pre, s = pre +:+ lstrip s /\ all_space pre = true.
Proof.
  induction s as [|c s (pre & Hs & Hpre)]; [exists ""; auto|].
  cbn [lstrip]. destruct (isspace c) eqn:Hc.
  - exists (String c pre). rewrite app_cons, <- Hs. cbn [all_space].
    rewrite Hc, Hpre. auto.
  - exists "". auto.
Qed.

Lemma rstrip_split s : exists post, s = rstrip s +:+ post /\ all_space post = true.
Proof.
  induction s as [|c s (post & Hs & Hpost)]; [exists ""; auto|].
  cbn [rstrip]. destruct (rstrip s) as [|a r] eqn:Hr.
  - rewrite app_nil_l in Hs. subst post. destruct (isspace c) eqn:Hc.
    + exists (String c s). cbn [all_space]. rewrite Hc, Hpost. auto.
    + exists s. auto.
  - exists post. rewrite app_cons, <- Hs. auto.
Qed.

Lemma rstrip_ends s : ends_nonspace (rstrip s) = true.
Proof.
  induction s as [|c s IH]; [reflexivity|]. cbn [rstrip].
  destruct (rstrip s) as [|a r] eqn:Hr.
  - destruct (isspace c) eqn:Hc; [reflexivity|]. cbn. rewrite Hc. reflexivity.
  - exact IH.
Qed.

Lemma strip_starts s : starts_nonspace (strip s) = true.
Proof.
  unfold strip.
  destruct (lstrip_head s) as [->|(c & r & -> & Hc)]; [reflexivity|].
  destruct (rstrip_head c r Hc) as [r' ->]. cbn. rewrite Hc. reflexivity.
Qed.

(** [strip] removes the white space at the two ends and nothing
    else. *)
Lemma strip_spec raw : trimmed_of raw (strip raw).
Proof.
  destruct (lstrip_split raw) as (pre & Hraw & Hpre).
  destruct (rstrip_split (lstrip raw)) as (post & Hmid & Hpost).
  exists pre, post. fold (strip raw) in Hmid.
  split; [rewrite <- Hmid; exact Hraw|].
  split; [exact Hpre|]. split; [exact Hpost|].
  split; [apply strip_starts|apply rstrip_ends].
Qed.

Lemma lstrip_all_space pre s : all_space pre = true -> lstrip (pre +:+ s) = lstrip s.
Proof.
  induction pre as [|c pre IH]; sapp; [reflexivity|]. cbn [all_space lstrip].
  destruct (isspace c); [exact IH|discriminate].
Qed.

Lemma rstrip_all_space post : all_space post = true -> rstrip post = "".
Proof.
  induction post as [|c post IH]; [reflexivity|]. cbn [all_space rstrip].
  destruct (isspace c); [|discriminate]. intros H. rewrite (IH H). reflexivity.
Qed.

Lemma rstrip_app_all_space s post :
  all_space post = true -> rstrip (s +:+ post) = rstrip s.
Proof.
  intros Hpost. induction s as [|c s IH]; sapp.
  - apply rstrip_all_space, Hpost.
  - cbn [rstrip]. rewrite IH. reflexivity.
Qed.

Lemma rstrip_ends_nonspace v : ends_nonspace v = true -> rstrip v = v.
Proof.
  induction v as [|c v IH]; [reflexivity|]. cbn [ends_nonspace rstrip].
  destruct v as [|a v].
  - cbn [rstrip]. destruct (isspace c); [discriminate|reflexivity].
  - intros H. rewrite (IH H). reflexivity.
Qed.

(** Only [strip raw] is [raw] without the white space at its two
    ends. *)
Lemma trimmed_of_strip raw v : trimmed_of raw v <-> v = strip raw.
Proof.
  split; [|intros ->; apply strip_spec].
  intros (pre & post & -> & Hpre & Hpost & Hstart & Hend). unfold strip.
  rewrite (lstrip_all_space pre _ Hpre).
  destruct v as [|c r].
  - rewrite app_nil_l.
    pose proof (lstrip_all_space post "" Hpost) as H. rewrite app_nil_r in H.
    rewrite H. reflexivity.
  - cbn [starts_nonspace] in Hstart. rewrite app_cons. cbn [lstrip].
    destruct (isspace c); [discriminate|]. rewrite <- app_cons.
    rewrite (rstrip_app_all_space _ _ Hpost). symmetry. apply rstrip_ends_nonspace, Hend.
Qed.

(** *** The run on a disk *)

Lemma load_meminfo_unfold d :
  load_meminfo d =
    match raw_files d !! meminfo_path with
    | None => (Raise (OSError meminfo_path), d)
    | Some bs =>
        match codec d bs with
        | Raise e => (Raise e, d)
        | Ok text => (parse_meminfo (universal_newlines text), d)
        end
    end.
Proof.
  unfold load_meminfo, bind, open_decoded.
  destruct (raw_files d !! meminfo_path) as [bs|]; [|reflexivity].
  destruct (codec d bs); reflexivity.
Qed.

Lemma print_fields_out m d :
  for_ fields (fun field => print_out (field_line m field)) d
  = (Ok tt, mkDisk (raw_files d) (codec d) (out d +:+ report m)).
Proof.
  unfold fields, for_, bind, print_out, modify, ret, field_line, report.
  cbn [raw_files codec out]. rewrite !app_assoc. reflexivity.
Qed.

Lemma mem_analyze_bytes_unfold d :
  mem_analyze_bytes d =
    match load_meminfo d with
    | (Ok m, d') => (Ok tt, mkDisk (raw_files d') (codec d') (out d' +:+ report m))
    | (Raise e, d') => (Raise e, d')
    end.
Proof.
  unfold mem_analyze_bytes, bind. destruct (load_meminfo d) as [[m|e] d']; [|reflexivity].
  apply print_fields_out.
Qed.

Lemma load_meminfo_state d : (load_meminfo d).2 = d.
Proof.
  rewrite load_meminfo_unfold. destruct (raw_files d !! meminfo_path) as [bs|]; [|reflexivity].
  destruct (codec d bs); reflexivity.
Qed.

(** The run on a disk is the run on the decoded text. *)
Lemma mem_analyze_bytes_decoded d bs text :
  raw_files d !! meminfo_path = Some bs ->
  codec d bs = Ok text ->
  (mem_analyze_bytes d).1 = (mem_analyze (mkWorld {[ meminfo_path := text ]} (out d))).1
  /\ out (mem_analyze_bytes d).2
     = stdout (mem_analyze (mkWorld {[ meminfo_path := text ]} (out d))).2.
Proof.
  intros Hfile Hdec. rewrite mem_analyze_bytes_unfold, load_meminfo_unfold, Hfile, Hdec.
  rewrite mem_analyze_unfold. cbn [files]. rewrite lookup_singleton_eq.
  destruct (parse_meminfo (universal_newlines text)); split; reflexivity.
Qed.

(** [C4], as the claim states it, fails twice.  A line with two
    colons is not read as a pair: the script raises.  And the key is
    not trimmed: white space before the colon stays in the key, so
    the line [MemTotal : 1] does not set the field [MemTotal]. *)
Lemma meminfo_two_colons_raise_and_key_keeps_space :
  (count ":" "a:b:c" = 2%nat
   /\ mem_analyze (world_of ("a:b:c" +:+ nl))
      = (Raise (ValueError "too many values to unpack (expected 2)"),
         world_of ("a:b:c" +:+ nl)))
  /\ (parse_meminfo ("MemTotal : 1" +:+ nl) = Ok {[ "MemTotal " := " 1" ]}
      /\ strip "MemTotal " <> "MemTotal "
      /\ stdout (snd (mem_analyze (world_of ("MemTotal : 1" +:+ nl))))
         = "MemTotal: " +:+ nl +:+ "MemFree: " +:+ nl +:+ "Buffers: " +:+ nl
           +:+ "Cached: " +:+ nl +:+ "SwapTotal: " +:+ nl +:+ "SwapFree: " +:+ nl).
Proof.
  split; [split|split; [|split]].
  - reflexivity.
  - rewrite mem_analyze_unfold. unfold world_of. cbn [files].
    rewrite lookup_singleton_eq. reflexivity.
  - vm_compute. reflexivity.
  - vm_compute. discriminate.
  - rewrite mem_analyze_unfold. unfold world_of. cbn [files].
    rewrite lookup_singleton_eq. vm_compute. reflexivity.
Qed.

(** The source file of [undecodable_disk] opens and its one line
    holds one colon, and yet the script raises: the byte [0xff] is
    not ASCII. *)
Lemma meminfo_undecodable_raises :
  raw_files undecodable_disk !! meminfo_path = Some undecodable_bytes
  /\ count ":" (string_of_list_byte undecodable_bytes) = 1%nat
  /\ mem_analyze_bytes undecodable_disk
     = (Raise (UnicodeDecodeError "ascii" 10 "ordinal not in range(128)"),
        undecodable_disk).
Proof.
  split; [apply lookup_singleton_eq|]. split; [reflexivity|].
  rewrite mem_analyze_bytes_unfold, load_meminfo_unfold. unfold undecodable_disk.
  cbn [raw_files codec]. rewrite lookup_singleton_eq. reflexivity.
Qed.

(** [C4], amended: every stripped line is cut at each colon and must
    give exactly two parts.  Reading and parsing the file (lines 5-8,
    before anything is printed) raises if and only if the file cannot
    be opened or read, its bytes cannot be decoded as text, or some
    line does not hold exactly one colon; the script then ends with
    that exception and has printed nothing.  Otherwise every line is
    read as the pair of the text before its colon (the key) and the
    text after it (the value), and the pairs fill the dictionary from
    the first line to the last. *)
Theorem meminfo_load_raises_iff d :
  ((exists e, (load_meminfo d).1 = Raise e) <->
     raw_files d !! meminfo_path = None
     \/ (exists bs e, raw_files d !! meminfo_path = Some bs /\ codec d bs = Raise e)
     \/ (exists bs text,
           raw_files d !! meminfo_path = Some bs /\ codec d bs = Ok text
           /\ Exists (fun line => ~ one_colon line) (lines_of text)))
  /\ (forall e, (load_meminfo d).1 = Raise e -> mem_analyze_bytes d = (Raise e, d))
  /\ match raw_files d !! meminfo_path with
     | None => load_meminfo d = (Raise (OSError meminfo_path), d)
     | Some bs =>
         match codec d bs with
         | Raise e => load_meminfo d = (Raise e, d)
         | Ok text =>
             (Exists (fun line => ~ one_colon line) (lines_of text)
              /\ exists msg, load_meminfo d = (Raise (ValueError msg), d))
             \/ (Forall one_colon (lines_of text)
                 /\ Forall splits_at_colon (lines_of text)
                 /\ load_meminfo d
                    = (Ok (dict_from (map kv_of_line (lines_of text))), d))
         end
     end.
Proof.
  split; [|split].
  - rewrite load_meminfo_unfold. unfold lines_of.
    destruct (raw_files d !! meminfo_path) as [bs|] eqn:Hfile.
    + destruct (codec d bs) as [text|e0] eqn:Hdec.
      * destruct (one_colon_dec (readlines (universal_newlines text))) as [Hall|Hex].
        -- rewrite (parse_ok _ Hall). split; [intros [e [=]]|].
           intros [[=]|[(bs' & e' & [= <-] & Hnone)|(bs' & text' & [= <-] & Hsome & Hex)]].
           ++ congruence.
           ++ assert (text' = text) as -> by congruence.
              apply Exists_exists in Hex as (l & Hin & Hl).
              rewrite Forall_forall in Hall. destruct Hl. apply Hall, Hin.
        -- destruct (parse_raise _ Hex) as [msg ->]. split; [|eauto].
           intros _. right. right. eauto.
      * split; [|eauto]. intros _. right. left. eauto.
    + split; [auto|eauto].
  - intros e He. rewrite mem_analyze_bytes_unfold.
    pose proof (load_meminfo_state d) as Hst.
    destruct (load_meminfo d) as [[m|e'] d']; cbn in *; [discriminate|].
    congruence.
  - rewrite load_meminfo_unfold. unfold lines_of.
    destruct (raw_files d !! meminfo_path) as [bs|]; [|reflexivity].
    destruct (codec d bs) as [text|e0]; [|reflexivity].
    destruct (one_colon_dec (readlines (universal_newlines text))) as [Hall|Hex].
    + right. rewrite (parse_ok _ Hall). split; [exact Hall|]. split; [|reflexivity].
      eapply Forall_impl; [exact Hall|]. apply kv_splits.
    + left. destruct (parse_raise _ Hex) as [msg ->]. eauto.
Qed.

(** [C7], as the claim states it, fails: a value is not printed as
    the dictionary holds it.  For the line [MemTotal:   123 kB] the
    dictionary holds the value with its three leading spaces, and the
    script prints [MemTotal: 123 kB]. *)
Lemma mem_analyze_does_not_print_raw_value :
  load_meminfo sample_disk = (Ok sample_dict, sample_disk)
  /\ sample_dict !! "MemTotal" = Some "   123 kB"
  /\ untrimmed_report sample_dict
     = "MemTotal:    123 kB" +:+ nl +:+ "MemFree: " +:+ nl +:+ "Buffers: " +:+ nl
       +:+ "Cached: " +:+ nl +:+ "SwapTotal: " +:+ nl +:+ "SwapFree: " +:+ nl
  /\ mem_analyze_bytes sample_disk
     = (Ok tt,
        mkDisk (raw_files sample_disk) (codec sample_disk)
          ("MemTotal: 123 kB" +:+ nl +:+ "MemFree: " +:+ nl +:+ "Buffers: " +:+ nl
           +:+ "Cached: " +:+ nl +:+ "SwapTotal: " +:+ nl +:+ "SwapFree: " +:+ nl))
  /\ out (mem_analyze_bytes sample_disk).2 <> untrimmed_report sample_dict.
Proof.
  assert (load_meminfo sample_disk = (Ok sample_dict, sample_disk)) as Hload.
  { rewrite load_meminfo_unfold. unfold sample_disk. cbn [raw_files codec].
    rewrite lookup_singleton_eq. vm_compute. reflexivity. }
  split; [exact Hload|]. split; [apply lookup_singleton_eq|].
  split; [vm_compute; reflexivity|].
  assert (report sample_dict
          = "MemTotal: 123 kB" +:+ nl +:+ "MemFree: " +:+ nl +:+ "Buffers: " +:+ nl
            +:+ "Cached: " +:+ nl +:+ "SwapTotal: " +:+ nl +:+ "SwapFree: " +:+ nl)
    as Hreport by (vm_compute; reflexivity).
  rewrite mem_analyze_bytes_unfold, Hload. cbn [out raw_files codec sample_disk snd].
  rewrite app_nil_l, Hreport. split; [reflexivity|].
  intros H. apply (f_equal (contains "MemTotal: 123")) in H.
  vm_compute in H. discriminate H.
Qed.

(** [C7], amended: for every dictionary that the parsing gives, the
    script prints exactly six lines, one per field, in the order
    MemTotal, MemFree, Buffers, Cached, SwapTotal, SwapFree; a line is
    the field name, a colon, a space and the value of the field
    without the white space at its two ends; for a field that the
    dictionary does not hold the value is the empty string. *)
Theorem mem_analyze_prints_six_trimmed_fields d bs text (m : gmap string string) :
  raw_files d !! meminfo_path = Some bs ->
  codec d bs = Ok text ->
  parse_meminfo (universal_newlines text) = Ok m ->
  mem_analyze_bytes d
  = (Ok tt,
     mkDisk (raw_files d) (codec d)
       (out d
        +:+ "MemTotal: " +:+ strip (default "" (m !! "MemTotal")) +:+ nl
        +:+ "MemFree: " +:+ strip (default "" (m !! "MemFree")) +:+ nl
        +:+ "Buffers: " +:+ strip (default "" (m !! "Buffers")) +:+ nl
        +:+ "Cached: " +:+ strip (default "" (m !! "Cached")) +:+ nl
        +:+ "SwapTotal: " +:+ strip (default "" (m !! "SwapTotal")) +:+ nl
        +:+ "SwapFree: " +:+ strip (default "" (m !! "SwapFree")) +:+ nl))
  /\ Forall (fun field =>
               trimmed_of (default "" (m !! field)) (strip (default "" (m !! field)))
               /\ count LF (strip (default "" (m !! field))) = O)
       fields
  /\ count LF (report m) = 6%nat
  /\ forall field, m !! field = None -> field_line m field = field +:+ ": ".
Proof.
  intros Hfile Hdec Hparse.
  pose proof (parse_no_lf _ _ Hparse) as Hm.
  split; [|split; [|split]].
  - rewrite mem_analyze_bytes_unfold, load_meminfo_unfold, Hfile, Hdec, Hparse.
    reflexivity.
  - apply Forall_forall. intros field _. split; [apply strip_spec|].
    apply (rendered_no_lf m field Hm).
  - apply report_lines, Hm.
  - intros field Hnone. unfold field_line, dict_get. rewrite Hnone. reflexivity.
Qed.

Lemma mem_analyze_prints_six_trimmed_fields_witness :
  raw_files sample_disk !! meminfo_path = Some sample_bytes
  /\ codec sample_disk sample_bytes = Ok sample_text
  /\ parse_meminfo (universal_newlines sample_text) = Ok sample_dict
  /\ mem_analyze_bytes sample_disk
     = (Ok tt,
        mkDisk (raw_files sample_disk) (codec sample_disk)
          ("MemTotal: 123 kB" +:+ nl +:+ "MemFree: " +:+ nl +:+ "Buffers: " +:+ nl
           +:+ "Cached: " +:+ nl +:+ "SwapTotal: " +:+ nl +:+ "SwapFree: " +:+ nl))
  /\ Forall (fun field =>
               trimmed_of (default "" (sample_dict !! field))
                 (strip (default "" (sample_dict !! field)))
               /\ count LF (strip (default "" (sample_dict !! field))) = O)
       fields
  /\ count LF (report sample_dict) = 6%nat
  /\ forall field, sample_dict !! field = None -> field_line sample_dict field = field +:+ ": ".
Proof.
  assert (raw_files sample_disk !! meminfo_path = Some sample_bytes) as H1
    by apply lookup_singleton_eq.
  assert (codec sample_disk sample_bytes = Ok sample_text) as H2
    by (vm_compute; reflexivity).
  assert (parse_meminfo (universal_newlines sample_text) = Ok sample_dict) as H3
    by (vm_compute; reflexivity).
  split; [exact H1|]. split; [exact H2|]. split; [exact H3|].
  exact (mem_analyze_prints_six_trimmed_fields sample_disk sample_bytes sample_text
           sample_dict H1 H2 H3).
Defined.

End MemAnalyzeSpec.

(** * Further properties *)

(** ** Strings *)

Module StrMore.
Import StrFacts.

Lemma count_replace_gone a b s : a <> b -> count a (replace a b s) = O.
Proof.
  intros Hab. induction s as [|c s IH]; cbn [replace count]; [reflexivity|].
  rewrite IH. destruct (Ascii.eqb_spec c a) as [->|Hc].
  - destruct (Ascii.eqb_spec b a); [congruence|reflexivity].
  - destruct (Ascii.eqb_spec c a); [congruence|reflexivity].
Qed.

Lemma count_replace_other c a b s :
  c <> a -> c <> b -> count c (replace a b s) = count c s.
Proof.
  intros Hca Hcb. induction s as [|x s IH]; cbn [replace count]; [reflexivity|].
  rewrite IH. destruct (Ascii.eqb_spec x a) as [->|Hx].
  - destruct (Ascii.eqb_spec b c); [congruence|].
    destruct (Ascii.eqb_spec a c); [congruence|reflexivity].
  - reflexivity.
Qed.

(** No piece of a split holds the separator. *)
Lemma split_pieces sep s : Forall (fun p => count sep p = O) (split sep s).
Proof.
  induction s as [|c s IH]; cbn [split].
  - repeat constructor.
  - destruct (Ascii.eqb_spec c sep) as [->|Hc].
    + constructor; [reflexivity|assumption].
    + destruct (split sep s) as [|p ps]; [repeat constructor; cbn|].
      * destruct (Ascii.eqb_spec c sep); [contradiction|reflexivity].
      * apply Forall_cons in IH as [Hp Hps]. constructor; [|assumption].
        cbn. destruct (Ascii.eqb_spec c sep); [contradiction|]. assumption.
Qed.

Lemma split_app_sep sep a : forall b,
  split sep (a +:+ String sep b) = split sep a ++ split sep b.
Proof.
  induction a as [|c a IH]; intros b; sapp; cbn [split].
  - rewrite Ascii.eqb_refl. reflexivity.
  - rewrite IH. destruct (Ascii.eqb c sep); [reflexivity|].
    pose proof (split_nonempty sep a).
    destruct (split sep a); [congruence|reflexivity].
Qed.

Lemma Forall_last {A} (P : A -> Prop) l d : Forall P l -> P d -> P (List.last l d).
Proof.
  intros Hl Hd. induction Hl as [|x l Hx Hl IH]; [exact Hd|].
  destruct l; [exact Hx|exact IH].
Qed.

Lemma Forall_bool_filter {A} (P : A -> Prop) f l :
  Forall P l -> Forall P (List.filter f l).
Proof.
  intros Hl. induction Hl as [|x l Hx Hl IH]; cbn; [constructor|].
  destruct (f x); [constructor|]; assumption.
Qed.

End StrMore.

(** ** The boot-sector finisher *)

Module StampMore.
Import Stamp StampSpec.

(** The signature of a padded file lies in the original bytes. *)
Lemma has_boot_sig_padded (data : list byte) :
  len data <= 5120 -> (has_boot_sig (padded data) <-> has_boot_sig data).
Proof.
  intros Hle. unfold has_boot_sig. split.
  - intros [H510 H511].
    destruct (Nat.le_gt_cases (length data) 511) as [Hshort|Hlong].
    + rewrite (padded_lookup_zero data 511 Hle) in H511 by lia. discriminate.
    + unfold padded in *. rewrite !lookup_app_l in * by lia. auto.
  - intros [H510 H511].
    assert (511 < length data)%nat by (apply lookup_lt_is_Some; eauto).
    unfold padded. rewrite !lookup_app_l by lia. auto.
Qed.

Lemma has_boot_sig_len (data : list byte) : has_boot_sig data -> 512 <= len data.
Proof.
  intros [_ H511]. assert (511 < length data)%nat by (apply lookup_lt_is_Some; eauto).
  unfold len. lia.
Qed.

(** [X1] A successful run tells what the file was and what it is now:
    the file named by [sys.argv[1]] had at least 512 and at most 5120
    bytes, its bytes 510 and 511 were the boot signature already
    before the run, and it is now those bytes padded with zero bytes
    to exactly 5120 bytes.  The padding never supplies the
    signature. *)
Theorem stamp_success_implies prog fn rest (fs fs' : FS) :
  stamp (prog :: fn :: rest) fs = (Ok tt, fs') ->
  exists data,
    fs !! fn = Some data
    /\ 512 <= len data <= 5120
    /\ has_boot_sig data
    /\ fs' = <[fn := padded data]> fs
    /\ len (padded data) = 5120
    /\ take (length data) (padded data) = data.
Proof.
  intros Hrun.
  destruct (stamp_ok_inv _ _ _ Hrun) as (fn' & data & Hargv & Hfn & Hle & Hsig & ->).
  cbn in Hargv. injection Hargv as <-.
  apply (has_boot_sig_padded data Hle) in Hsig.
  pose proof (has_boot_sig_len data Hsig) as Hlo.
  exists data. split; [assumption|]. split; [lia|]. split; [assumption|].
  split; [reflexivity|]. split; [apply padded_len; lia|apply take_app_length].
Qed.

Lemma stamp_success_implies_witness :
  stamp ["stamp.py"; "boot"] {[ "boot" := boot_image ]}
    = (Ok tt, {[ "boot" := stamped_image ]})
  /\ exists data,
      ({[ "boot" := boot_image ]} : FS) !! "boot" = Some data
      /\ 512 <= len data <= 5120
      /\ has_boot_sig data
      /\ ({[ "boot" := stamped_image ]} : FS) = <[ "boot" := padded data ]> {[ "boot" := boot_image ]}
      /\ len (padded data) = 5120
      /\ take (length data) (padded data) = data.
Proof.
  assert (stamp ["stamp.py"; "boot"] {[ "boot" := boot_image ]}
          = (Ok tt, {[ "boot" := stamped_image ]})) as H.
  { rewrite (stamp_fits "stamp.py" "boot" (@nil string) _ boot_image).
    - rewrite decide_True by apply boot_image_sig.
      rewrite insert_singleton_eq. reflexivity.
    - apply lookup_singleton_eq.
    - rewrite boot_image_len. lia. }
  split; [exact H|].
  exact (stamp_success_implies "stamp.py" "boot" [] _ _ H).
Defined.

(** [X2] Running the script a second time gives the outcome of the
    first run again and leaves the store as the first run left it. *)
Theorem stamp_twice argv (fs : FS) :
  stamp argv (stamp argv fs).2 = stamp argv fs.
Proof.
  destruct (argv !! 1%nat) as [fn|] eqn:Hargv.
  - destruct (argv_cons argv fn Hargv) as (prog & rest & ->).
    destruct (fs !! fn) as [data|] eqn:Hfn.
    + destruct (Z_le_gt_dec (len data) 5120) as [Hle|Hgt].
      * rewrite (stamp_fits prog fn rest fs data Hfn Hle). cbn [snd].
        pose proof (padded_len data Hle) as Hlen.
        rewrite (stamp_fits prog fn rest _ (padded data)).
        -- rewrite (padded_full (padded data) Hlen), insert_insert_eq. reflexivity.
        -- apply lookup_insert_eq.
        -- lia.
      * rewrite (stamp_too_big prog fn rest fs data Hfn) by lia. cbn [snd].
        apply stamp_too_big; [assumption|lia].
    + rewrite !stamp_unfold. cbn [lookup list_lookup]. rewrite Hfn. cbn [snd].
      rewrite Hfn. reflexivity.
  - rewrite !stamp_unfold, Hargv. reflexivity.
Qed.

(** [X3] The script changes the store in one way only: it appends zero
    bytes to the file named by [sys.argv[1]].  It creates no file,
    removes none, and every other file keeps its contents. *)
Theorem stamp_only_appends_zeros argv (fs : FS) p :
  match fs !! p with
  | None => (stamp argv fs).2 !! p = None
  | Some d =>
      exists n : nat,
        (stamp argv fs).2 !! p = Some (d ++ replicate n x00)
        /\ (argv !! 1%nat <> Some p -> n = O)
  end.
Proof.
  assert (forall d, fs !! p = Some d ->
            exists n : nat, fs !! p = Some (d ++ replicate n x00)
                            /\ (argv !! 1%nat <> Some p -> n = O)) as Hsame.
  { intros d Hd. exists O. cbn. rewrite app_nil_r. auto. }
  rewrite stamp_unfold.
  destruct (argv !! 1%nat) as [fn|] eqn:Hargv; cbn [snd].
  2:{ destruct (fs !! p) eqn:Hp; [apply Hsame|]; auto. }
  destruct (fs !! fn) as [data|] eqn:Hfn; cbn [snd].
  2:{ destruct (fs !! p) eqn:Hp; [apply Hsame|]; auto. }
  destruct (left (len data) <? 0) eqn:Hleft; cbn [snd].
  { destruct (fs !! p) eqn:Hp; [apply Hsame|]; auto. }
  assert ((check_sig (take 512 (padded data)) (<[fn:=padded data]> fs)).2
          = <[fn:=padded data]> fs) as ->.
  { unfold check_sig, bind, index.
    destruct (take 512 (padded data) !! 510%nat) as [b0|]; [|reflexivity]. cbn.
    destruct (negb _); [reflexivity|].
    destruct (take 512 (padded data) !! 511%nat) as [b1|]; [|reflexivity]. cbn.
    destruct (negb _); reflexivity. }
  destruct (decide (fn = p)) as [->|Hne].
  - rewrite Hfn, lookup_insert_eq. exists (Z.to_nat (left (len data))).
    split; [reflexivity|]. intros H. congruence.
  - rewrite lookup_insert_ne by assumption.
    destruct (fs !! p) eqn:Hp; [apply Hsame|]; auto.
Qed.

Lemma oversize_image_len : len oversize_image = 5121.
Proof. vm_compute. reflexivity. Qed.



(** [X5] On a file of more than 5120 and fewer than [2^53 - 1] bytes
    the script raises [ValueError] with the message
    [boot sector is bigger than numblocks (is 10, should be N)], where
    [N] is the least number of 512-byte blocks that hold the file;
    [N] is larger than [numblocks]. *)
Theorem stamp_oversize_message prog fn rest (fs : FS) (data : list byte) :
  fs !! fn = Some data ->
  5120 < len data ->
  len data < 2 ^ 53 - 1 ->
  exists N,
    stamp (prog :: fn :: rest) fs
    = (Raise (ValueError
         ("boot sector is bigger than numblocks (is 10, should be "
            +:+ str_of_int N +:+ ")")),
       fs)
    /\ len data <= N * 512
    /\ (N - 1) * 512 < len data
    /\ numblocks < N.
Proof.
  intros Hfn Hlo Hhi. exists (ceil_div (len data) 512).
  pose proof (ceil_div_spec (len data) 512 ltac:(lia)) as [H1 H2].
  split; [|split; [exact H1|split; [exact H2|]]].
  - apply stamp_too_big_reports_ceiling; [assumption|lia].
  - unfold numblocks. lia.
Qed.

Lemma stamp_oversize_message_witness :
  ({[ "boot" := oversize_image ]} : FS) !! "boot" = Some oversize_image
  /\ 5120 < len oversize_image
  /\ len oversize_image < 2 ^ 53 - 1
  /\ exists N,
      stamp ["stamp.py"; "boot"] {[ "boot" := oversize_image ]}
      = (Raise (ValueError
           ("boot sector is bigger than numblocks (is 10, should be "
              +:+ str_of_int N +:+ ")")),
         {[ "boot" := oversize_image ]})
      /\ len oversize_image <= N * 512
      /\ (N - 1) * 512 < len oversize_image
      /\ numblocks < N.
Proof.
  assert (({[ "boot" := oversize_image ]} : FS) !! "boot" = Some oversize_image) as H1
    by apply lookup_singleton_eq.
  assert (5120 < len oversize_image) as H2 by (rewrite oversize_image_len; lia).
  assert (len oversize_image < 2 ^ 53 - 1) as H3 by (rewrite oversize_image_len; lia).
  split; [exact H1|]. split; [exact H2|]. split; [exact H3|].
  exact (stamp_oversize_message "stamp.py" "boot" [] _ _ H1 H2 H3).
Defined.

(** [X6] With the path of a file that does not exist the script raises
    [OSError] and does not create the file; without a file argument
    it raises [IndexError]. *)
Theorem stamp_missing_file prog fn rest (fs : FS) :
  fs !! fn = None ->
  stamp (prog :: fn :: rest) fs = (Raise (OSError fn), fs)
  /\ (stamp (prog :: fn :: rest) fs).2 !! fn = None
  /\ exists msg, stamp [prog] fs = (Raise (IndexError msg), fs).
Proof.
  intros Hfn. rewrite !stamp_unfold. cbn [lookup list_lookup]. rewrite Hfn.
  cbn [snd]. eauto.
Qed.

Lemma stamp_missing_file_witness :
  (∅ : FS) !! "boot" = None
  /\ stamp ["stamp.py"; "boot"] ∅ = (Raise (OSError "boot"), ∅)
  /\ (stamp ["stamp.py"; "boot"] ∅).2 !! "boot" = None
  /\ exists msg, stamp ["stamp.py"] ∅ = (Raise (IndexError msg), ∅).
Proof.
  assert ((∅ : FS) !! "boot" = None) as H by apply lookup_empty.
  split; [exact H|].
  exact (stamp_missing_file "stamp.py" "boot" [] ∅ H).
Defined.

End StampMore.

(** ** The hex-array emitter *)

Module XxdMore.
Import Xxd StrFacts StrMore XxdSpec.

(** [X7] Given the path of a file that does not exist, the script
    raises [OSError] before it prints anything: the standard output
    and the standard error stream are untouched. *)
Theorem xxd_missing_file prog path w :
  files w !! path = None ->
  xxd [prog; path] w
  = (Raise (OSError path),
     mkWorld (files w) (stdout w) (stderr w) (opened w ++ [path])).
Proof.
  intros Hfile. unfold xxd, bind.
  change (negb (len [prog; path] =? 2)) with false.
  cbn [ret list_index lookup list_lookup]. unfold read_bytes. rewrite Hfile.
  reflexivity.
Qed.

(** [X8] For an empty file the array has no entry and no blank line:
    the output is the header line, the closing line and a length of
    0. *)
Theorem xxd_empty_file prog path w :
  files w !! path = Some [] ->
  xxd [prog; path] w
  = (Ok tt,
     mkWorld (files w)
       (stdout w
        +:+ "unsigned char " +:+ c_name path +:+ "[] = {" +:+ nl
        +:+ "};" +:+ nl
        +:+ "unsigned int " +:+ c_name path +:+ "_len = 0;" +:+ nl)
       (stderr w) (opened w ++ [path])).
Proof.
  intros Hfile. rewrite (xxd_run prog path w [] Hfile).
  unfold output_text, length_line, array_body. cbn [entries_text].
  change (negb (len (@nil byte) mod 12 =? 0)) with false. cbv iota.
  change (str_of_int (len (@nil byte))) with "0".
  rewrite !app_nil_l, !app_assoc. reflexivity.
Qed.

(** The separators depend on the index modulo 12 only. *)
Lemma mod12_shift x : (x + 12) mod 12 = x mod 12.
Proof. rewrite <- (Z.mul_1_l 12) at 1. apply Z.mod_add. lia. Qed.

Lemma entries_text_period data : forall i,
  entries_text (i + 12) data = entries_text i data.
Proof.
  induction data as [|b rest IH]; intros i; cbn [entries_text]; [reflexivity|].
  unfold sep_of, end_of.
  replace (i + 12 + 1) with (i + 1 + 12) by lia.
  rewrite IH, !mod12_shift. reflexivity.
Qed.

Lemma entries_text_app row : forall i rest,
  entries_text i (row ++ rest)
  = entries_text i row +:+ entries_text (i + len row) rest.
Proof.
  induction row as [|b row IH]; intros i rest.
  - cbn. rewrite Z.add_0_r. reflexivity.
  - cbn [app entries_text]. rewrite IH, !app_assoc.
    replace (i + 1 + len row) with (i + len (b :: row)) by (unfold len; cbn [length]; lia).
    reflexivity.
Qed.

(** The text of the entries at the positions [j], [j + 1], ... of a
    line. *)
Lemma entries_text_in_row row : forall j,
  0 <= j -> j + len row <= 12 -> row <> [] ->
  entries_text j row
  = (if j =? 0 then " " else "") +:+ entries_join row
    +:+ (if j + len row =? 12 then nl else "").
Proof.
  induction row as [|b row IH]; intros j Hj Hlen Hne; [congruence|].
  cbn [entries_text entries_join].
  assert (len (b :: row) = 1 + len row) as Hcons by (unfold len; cbn [length]; lia).
  rewrite Hcons in *. pose proof (StampSpec.len_nonneg row) as Hrow.
  unfold sep_of, end_of.
  rewrite (Z.mod_small j 12) by lia.
  destruct row as [|b' row'].
  - cbn [entries_text entries_join]. change (len (@nil byte)) with 0 in *.
    replace (j + (1 + 0)) with (j + 1) by lia.
    destruct (Z.eqb_spec (j + 1) 12) as [E|E].
    + rewrite E. cbn. rewrite !app_assoc, !app_nil_r. reflexivity.
    + rewrite (Z.mod_small (j + 1) 12) by lia.
      destruct (Z.eqb_spec (j + 1) 0); [lia|].
      rewrite !app_assoc, !app_nil_r. reflexivity.
  - assert (0 < len (b' :: row')) by (unfold len; cbn [length]; lia).
    rewrite (Z.mod_small (j + 1) 12) by lia.
    destruct (Z.eqb_spec (j + 1) 0); [lia|].
    rewrite IH by (lia || congruence).
    destruct (Z.eqb_spec (j + 1) 0); [lia|].
    replace (j + 1 + len (b' :: row')) with (j + (1 + len (b' :: row'))) by lia.
    rewrite !app_assoc, !app_nil_l. reflexivity.
Qed.

(** [X9] The array body is laid out in lines of twelve entries: a line
    is a space, its entries, each followed by a comma with nothing in
    between, and a line feed; only the last line can hold fewer than
    twelve entries, and an empty input gives no line at all. *)
Theorem array_body_rows (row rest : list byte) :
  (0 < length row <= 12)%nat ->
  ((length row < 12)%nat -> rest = []) ->
  array_body (row ++ rest) = row_text row +:+ array_body rest
  /\ array_body [] = "".
Proof.
  intros [Hpos Hle] Hlast. split; [|reflexivity].
  assert (row <> []) as Hne by (destruct row; [cbn in Hpos; lia|discriminate]).
  assert (0 < len row <= 12) as Hlen by (unfold len; lia).
  unfold array_body, row_text.
  rewrite entries_text_app, (entries_text_in_row row 0) by (lia || assumption).
  cbn [Z.eqb]. rewrite !Z.add_0_l.
  destruct (Z.eqb_spec (len row) 12) as [E|E].
  - rewrite E. change 12 with (0 + 12) at 1. rewrite entries_text_period.
    assert (len (row ++ rest) mod 12 = len rest mod 12) as ->.
    { rewrite StampSpec.len_app, E, Z.add_comm. apply mod12_shift. }
    rewrite !app_assoc. reflexivity.
  - rewrite Hlast by (unfold len in *; lia).
    rewrite List.app_nil_r. cbn [entries_text].
    change (len (@nil byte) mod 12 =? 0) with true.
    rewrite (Z.mod_small (len row) 12) by lia.
    destruct (Z.eqb_spec (len row) 0); [lia|]. cbn [negb].
    rewrite !app_assoc, !app_nil_l, !StrFacts.app_nil_r. reflexivity.
Qed.

Lemma array_body_rows_witness :
  (0 < length full_row <= 12)%nat
  /\ ((length full_row < 12)%nat -> [x0c] = [])
  /\ array_body (full_row ++ [x0c]) = row_text full_row +:+ array_body [x0c]
  /\ array_body [] = "".
Proof.
  assert (0 < length full_row <= 12)%nat as H1 by (cbn; lia).
  assert ((length full_row < 12)%nat -> [x0c] = []) as H2 by (cbn; lia).
  split; [exact H1|]. split; [exact H2|].
  exact (array_body_rows full_row [x0c] H1 H2).
Defined.

(** [X10] The array body determines the input: two byte sequences with
    the same body are equal. *)
Theorem array_body_injective (d1 d2 : list byte) :
  array_body d1 = array_body d2 -> d1 = d2.
Proof.
  intros H. apply (f_equal (fun body => map entry_value (entries_of body))) in H.
  rewrite !entries_of_body, !map_map in H.
  revert d2 H. induction d1 as [|a d1 IH]; intros [|b d2] H; cbn in H;
    try discriminate; [reflexivity|].
  rewrite !entry_value_ok in H. injection H as Hab Hrest.
  f_equal; [apply StampSpec.to_N_eq, Hab|apply IH, Hrest].
Qed.

Lemma array_body_injective_witness :
  array_body [x00; x01] = array_body [x00; x01]
  /\ [x00; x01] = [x00; x01].
Proof.
  assert (array_body [x00; x01] = array_body [x00; x01]) as H by reflexivity.
  split; [exact H|].
  exact (array_body_injective [x00; x01] [x00; x01] H).
Defined.

(** *** The name of the array *)

Lemma path_name_no_slash p : count "/" (path_name p) = O.
Proof.
  unfold path_name. apply Forall_last; [|reflexivity].
  apply Forall_bool_filter, split_pieces.
Qed.

(** [X11] The array name holds no [-], no [.] and no [/], whatever the
    path is. *)
Theorem c_name_has_no_dash_dot_slash path :
  count "-" (c_name path) = O
  /\ count "." (c_name path) = O
  /\ count "/" (c_name path) = O.
Proof.
  unfold c_name. split; [|split].
  - rewrite count_replace_other by discriminate.
    apply count_replace_gone. discriminate.
  - apply count_replace_gone. discriminate.
  - rewrite !count_replace_other by discriminate. apply path_name_no_slash.
Qed.

(** [X12] The directory part of the path does not reach the array name:
    for a file name [f] the name is [f] with every [-] and [.] turned
    into [_], under whatever directory the file lies. *)
Theorem c_name_ignores_directory dir f :
  count "/" f = O -> f <> "" -> f <> "." ->
  c_name (dir +:+ "/" +:+ f) = replace "." "_" (replace "-" "_" f)
  /\ c_name f = replace "." "_" (replace "-" "_" f).
Proof.
  intros Hslash Hne Hdot.
  assert (negb (String.eqb f "" || String.eqb f ".") = true) as Hkeep.
  { destruct (String.eqb_spec f ""); [contradiction|].
    destruct (String.eqb_spec f "."); [contradiction|]. reflexivity. }
  unfold c_name, path_name. split.
  - change ("/" +:+ f) with (String "/" f).
    rewrite split_app_sep, (split_none "/" f Hslash), List.filter_app.
    cbn [List.filter]. rewrite Hkeep, List.last_last. reflexivity.
  - rewrite (split_none "/" f Hslash). cbn [List.filter]. rewrite Hkeep.
    reflexivity.
Qed.

Lemma c_name_ignores_directory_witness :
  count "/" "boot-1.bin" = O /\ "boot-1.bin" <> "" /\ "boot-1.bin" <> "."
  /\ c_name ("obj/kernel" +:+ "/" +:+ "boot-1.bin")
     = replace "." "_" (replace "-" "_" "boot-1.bin")
  /\ c_name "boot-1.bin" = replace "." "_" (replace "-" "_" "boot-1.bin").
Proof.
  assert (count "/" "boot-1.bin" = O) as H1 by reflexivity.
  assert ("boot-1.bin" <> "") as H2 by discriminate.
  assert ("boot-1.bin" <> ".") as H3 by discriminate.
  split; [exact H1|]. split; [exact H2|]. split; [exact H3|].
  exact (c_name_ignores_directory "obj/kernel" "boot-1.bin" H1 H2 H3).
Defined.

Lemma xxd_missing_file_witness :
  files foo_world !! "bar.bin" = None
  /\ xxd ["xxd.py"; "bar.bin"] foo_world
     = (Raise (OSError "bar.bin"),
        mkWorld (files foo_world) (stdout foo_world) (stderr foo_world)
          (opened foo_world ++ ["bar.bin"])).
Proof.
  assert (files foo_world !! "bar.bin" = None) as H by (vm_compute; reflexivity).
  split; [exact H|].
  exact (xxd_missing_file "xxd.py" "bar.bin" foo_world H).
Defined.

Lemma xxd_empty_file_witness :
  files empty_world !! "empty.bin" = Some []
  /\ xxd ["xxd.py"; "empty.bin"] empty_world
     = (Ok tt,
        mkWorld (files empty_world)
          (stdout empty_world
           +:+ "unsigned char " +:+ c_name "empty.bin" +:+ "[] = {" +:+ nl
           +:+ "};" +:+ nl
           +:+ "unsigned int " +:+ c_name "empty.bin" +:+ "_len = 0;" +:+ nl)
          (stderr empty_world) (opened empty_world ++ ["empty.bin"])).
Proof.
  assert (files empty_world !! "empty.bin" = Some []) as H
    by apply lookup_singleton_eq.
  split; [exact H|].
  exact (xxd_empty_file "xxd.py" "empty.bin" empty_world H).
Defined.

End XxdMore.

(** ** The meminfo reporter *)

Module MemAnalyzeMore.
Import MemAnalyze StrFacts StrMore MemAnalyzeSpec.

(** [X13] The script never changes a file, and its output is all or
    nothing: when it raises, the disk and the output are as they
    were; when it succeeds, the bytes of the source file were
    decoded and parsed into a dictionary, and the output is the six
    lines of that dictionary. *)
Theorem mem_analyze_all_or_nothing d :
  raw_files (mem_analyze_bytes d).2 = raw_files d
  /\ (((exists e, (mem_analyze_bytes d).1 = Raise e) /\ (mem_analyze_bytes d).2 = d)
      \/ (exists bs text m,
            raw_files d !! meminfo_path = Some bs
            /\ codec d bs = Ok text
            /\ parse_meminfo (universal_newlines text) = Ok m
            /\ mem_analyze_bytes d
               = (Ok tt, mkDisk (raw_files d) (codec d) (out d +:+ report m)))).
Proof.
  rewrite mem_analyze_bytes_unfold, load_meminfo_unfold.
  destruct (raw_files d !! meminfo_path) as [bs|] eqn:Hfile.
  - destruct (codec d bs) as [text|e0] eqn:Hdec.
    + destruct (parse_meminfo (universal_newlines text)) as [m|e] eqn:Hparse;
        cbn [fst snd raw_files]; (split; [reflexivity|]).
      * right. exists bs, text, m. auto.
      * left. eauto.
    + split; [reflexivity|]. left. eauto.
  - split; [reflexivity|]. left. eauto.
Qed.

(** [X14] An empty file is no error: the dictionary is empty and the six
    fields are printed with an empty value. *)
Theorem mem_analyze_empty_file w :
  files w !! meminfo_path = Some "" ->
  mem_analyze w = (Ok tt, mkWorld (files w) (stdout w +:+ empty_report)).
Proof.
  intros Hfile. rewrite mem_analyze_unfold, Hfile. reflexivity.
Qed.

Lemma mem_analyze_empty_file_witness :
  files (world_of "") !! meminfo_path = Some ""
  /\ mem_analyze (world_of "")
     = (Ok tt, mkWorld (files (world_of "")) (stdout (world_of "") +:+ empty_report)).
Proof.
  assert (files (world_of "") !! meminfo_path = Some "") as H
    by apply lookup_singleton_eq.
  split; [exact H|]. exact (mem_analyze_empty_file (world_of "") H).
Defined.

(** The dictionary after some good lines and a line without a colon. *)
Lemma build_dict_no_colon good : forall m l rest,
  Forall one_colon good ->
  count ":" l = O ->
  build_dict m (map (split ":") (map strip (good ++ l :: rest)))
  = Raise (ValueError "not enough values to unpack (expected 2, got 1)").
Proof.
  induction good as [|g good IH]; intros m l rest Hgood Hl; cbn [app map build_dict].
  - rewrite split_none by (rewrite count_strip; [assumption|reflexivity]).
    reflexivity.
  - apply Forall_cons in Hgood as [Hg Hgood].
    rewrite unpack2_split_ok by (rewrite count_strip; [assumption|reflexivity]).
    apply IH; assumption.
Qed.

(** [X15] A line without a colon, a blank line for one, after lines
    that each hold one colon, makes the script raise [ValueError]
    with the message [not enough values to unpack (expected 2, got 1)];
    nothing is printed. *)
Theorem mem_analyze_line_without_colon w text good l rest :
  files w !! meminfo_path = Some text ->
  lines_of text = good ++ l :: rest ->
  Forall one_colon good ->
  count ":" l = O ->
  mem_analyze w
  = (Raise (ValueError "not enough values to unpack (expected 2, got 1)"), w).
Proof.
  intros Hfile Hlines Hgood Hl. rewrite mem_analyze_unfold, Hfile.
  unfold parse_meminfo. fold (lines_of text). rewrite Hlines.
  rewrite (build_dict_no_colon good ∅ l rest Hgood Hl). reflexivity.
Qed.

Lemma mem_analyze_line_without_colon_witness :
  files (world_of blank_line_text) !! meminfo_path = Some blank_line_text
  /\ lines_of blank_line_text
     = ["MemTotal: 1" +:+ nl] ++ nl :: ["MemFree: 2" +:+ nl]
  /\ Forall one_colon ["MemTotal: 1" +:+ nl]
  /\ count ":" nl = O
  /\ mem_analyze (world_of blank_line_text)
     = (Raise (ValueError "not enough values to unpack (expected 2, got 1)"),
        world_of blank_line_text).
Proof.
  assert (files (world_of blank_line_text) !! meminfo_path = Some blank_line_text) as H1
    by apply lookup_singleton_eq.
  assert (lines_of blank_line_text
          = ["MemTotal: 1" +:+ nl] ++ nl :: ["MemFree: 2" +:+ nl]) as H2
    by reflexivity.
  assert (Forall one_colon ["MemTotal: 1" +:+ nl]) as H3
    by (constructor; [reflexivity|constructor]).
  assert (count ":" nl = O) as H4 by reflexivity.
  split; [exact H1|]. split; [exact H2|]. split; [exact H3|]. split; [exact H4|].
  exact (mem_analyze_line_without_colon _ _ _ _ _ H1 H2 H3 H4).
Defined.

(** *** Duplicate keys *)

Lemma dict_from_snoc kvs kv :
  dict_from (kvs ++ [kv]) = <[kv.1 := kv.2]> (dict_from kvs).
Proof. unfold dict_from. rewrite fold_left_app. reflexivity. Qed.

Lemma snoc_split {A} (xs : list A) x l1 y l2 :
  xs ++ [x] = l1 ++ y :: l2 ->
  (l2 = [] /\ xs = l1 /\ x = y)
  \/ exists l2', l2 = l2' ++ [x] /\ xs = l1 ++ y :: l2'.
Proof.
  intros H. destruct l2 as [|z l2] using rev_ind.
  - left. apply app_inj_tail in H as [-> ->]. auto.
  - right. clear IHl2. exists l2.
    change (l1 ++ y :: l2 ++ [z]) with (l1 ++ (y :: l2) ++ [z]) in H.
    rewrite List.app_assoc in H. apply app_inj_tail in H as [-> ->]. auto.
Qed.

(** A key is bound to the value of the last pair that carries it. *)
Lemma dict_from_lookup {A} (f : A -> string * string) (xs : list A) k v :
  dict_from (map f xs) !! k = Some v <->
  exists l1 x l2,
    xs = l1 ++ x :: l2 /\ f x = (k, v) /\ Forall (fun y => (f y).1 <> k) l2.
Proof.
  induction xs as [|x xs IH] using rev_ind.
  - cbn. rewrite lookup_empty. split; [discriminate|].
    intros (l1 & y & l2 & H & _). destruct l1; discriminate.
  - rewrite map_app. cbn [map]. rewrite dict_from_snoc.
    destruct (decide ((f x).1 = k)) as [Hk|Hk].
    + rewrite Hk, lookup_insert_eq. split.
      * intros [= <-]. exists xs, x, []. rewrite <- Hk.
        split; [reflexivity|]. split; [destruct (f x); reflexivity|constructor].
      * intros (l1 & y & l2 & Hsplit & Hy & Hl2).
        apply snoc_split in Hsplit as [(-> & -> & ->)|(l2' & -> & ->)].
        -- rewrite Hy. reflexivity.
        -- apply Forall_app in Hl2 as [_ Hx]. apply Forall_cons in Hx as [Hx _].
           contradiction.
    + rewrite lookup_insert_ne by assumption. rewrite IH. split.
      * intros (l1 & y & l2 & -> & Hy & Hl2). exists l1, y, (l2 ++ [x]).
        split; [rewrite <- List.app_assoc; reflexivity|]. split; [assumption|].
        apply Forall_app. split; [assumption|]. constructor; [assumption|constructor].
      * intros (l1 & y & l2 & Hsplit & Hy & Hl2).
        apply snoc_split in Hsplit as [(-> & -> & ->)|(l2' & -> & ->)].
        -- rewrite Hy in Hk. contradiction Hk. reflexivity.
        -- exists l1, y, l2'. apply Forall_app in Hl2 as [Hl2 _]. auto.
Qed.

(** [X16] When a key occurs on several lines the last line wins: the
    dictionary binds a key [k] to [v] exactly when some line reads as
    the pair [(k, v)] and no later line has the key [k]. *)
Theorem parse_meminfo_last_line_wins text (m : gmap string string) k v :
  parse_meminfo text = Ok m ->
  (m !! k = Some v <->
   exists before l after,
     readlines text = before ++ l :: after
     /\ kv_of_line l = (k, v)
     /\ Forall (fun l' => (kv_of_line l').1 <> k) after).
Proof.
  intros Hparse.
  destruct (one_colon_dec (readlines text)) as [Hall|Hex].
  - rewrite (parse_ok text Hall) in Hparse. injection Hparse as <-.
    apply dict_from_lookup.
  - destruct (parse_raise text Hex) as [msg Hmsg]. congruence.
Qed.

Lemma parse_meminfo_last_line_wins_witness :
  parse_meminfo twice_text = Ok {[ "MemFree" := " 2" ]}
  /\ ((({[ "MemFree" := " 2" ]} : gmap string string) !! "MemFree" = Some " 2") <->
      exists before l after,
        readlines twice_text = before ++ l :: after
        /\ kv_of_line l = ("MemFree", " 2")
        /\ Forall (fun l' => (kv_of_line l').1 <> "MemFree") after).
Proof.
  assert (parse_meminfo twice_text = Ok {[ "MemFree" := " 2" ]}) as H
    by (vm_compute; reflexivity).
  split; [exact H|].
  exact (parse_meminfo_last_line_wins twice_text _ "MemFree" " 2" H).
Defined.

(** *** White space *)

(** [X17] A printed value has no white space at its start or at its end:
    every output line is the field, a colon, one space and a value
    that stripping leaves unchanged. *)
Theorem field_line_value_is_stripped (m : gmap string string) field :
  exists v,
    field_line m field = field +:+ ": " +:+ v
    /\ lstrip v = v /\ rstrip v = v /\ strip v = v.
Proof.
  exists (strip (dict_get m field "")).
  destruct (strip_stripped (dict_get m field "")) as [Hl Hr].
  split; [reflexivity|]. split; [exact Hl|]. split; [exact Hr|].
  unfold strip at 1. rewrite Hl. exact Hr.
Qed.

Lemma rstrip_blank s : blank s -> rstrip s = "".
Proof.
  unfold blank. induction s as [|c s IH]; cbn [lstrip rstrip]; [reflexivity|].
  destruct (isspace c) eqn:Hc; [|discriminate].
  intros H. rewrite (IH H). reflexivity.
Qed.

Lemma rstrip_app_blank s post : blank post -> rstrip (s +:+ post) = rstrip s.
Proof.
  intros Hpost. induction s as [|c s IH]; sapp.
  - apply rstrip_blank, Hpost.
  - cbn [rstrip]. rewrite IH. reflexivity.
Qed.

Lemma strip_blank_around pre s post :
  blank pre -> blank post -> strip (pre +:+ s +:+ post) = strip s.
Proof.
  intros Hpre Hpost. unfold strip.
  rewrite (lstrip_blank_app pre _ Hpre), lstrip_app.
  destruct (lstrip s) as [|c r] eqn:Hs.
  - rewrite Hpost. reflexivity.
  - apply rstrip_app_blank, Hpost.
Qed.

(** [X18] White space around a line does not count: indentation before
    the key and blanks after the value (the line feed among them)
    change neither the key nor the value that the line is read as. *)
Theorem kv_of_line_ignores_outer_space pre line post :
  blank pre -> blank post ->
  kv_of_line (pre +:+ line +:+ post) = kv_of_line line
  /\ split ":" (strip (pre +:+ line +:+ post)) = split ":" (strip line).
Proof.
  intros Hpre Hpost. unfold kv_of_line.
  rewrite (strip_blank_around pre line post Hpre Hpost). auto.
Qed.

Lemma kv_of_line_ignores_outer_space_witness :
  blank "  " /\ blank (" " +:+ nl)
  /\ kv_of_line ("  " +:+ "MemTotal: 1 kB" +:+ " " +:+ nl) = kv_of_line "MemTotal: 1 kB"
  /\ split ":" (strip ("  " +:+ "MemTotal: 1 kB" +:+ " " +:+ nl))
     = split ":" (strip "MemTotal: 1 kB").
Proof.
  assert (blank "  ") as H1 by reflexivity.
  assert (blank (" " +:+ nl)) as H2 by reflexivity.
  split; [exact H1|]. split; [exact H2|].
  exact (kv_of_line_ignores_outer_space "  " "MemTotal: 1 kB" (" " +:+ nl) H1 H2).
Defined.

(** *** Lines *)

Lemma readlines_join s : join_all (readlines s) = s.
Proof.
  induction s as [|c s IH]; [reflexivity|]. cbn [readlines].
  destruct (Ascii.eqb c LF).
  - cbn [join_all fold_right]. fold (join_all (readlines s)). rewrite IH. reflexivity.
  - destruct (readlines s) as [|l ls].
    + cbn in IH. subst s. reflexivity.
    + cbn [join_all fold_right] in *. fold (join_all ls) in *.
      rewrite app_cons, IH. reflexivity.
Qed.

Lemma readlines_nonempty s : Forall (fun l => l <> "") (readlines s).
Proof.
  induction s as [|c s IH]; cbn [readlines]; [constructor|].
  destruct (Ascii.eqb c LF); [constructor; [discriminate|assumption]|].
  destruct (readlines s) as [|l ls]; [repeat constructor; discriminate|].
  apply Forall_cons in IH as [_ Hls]. constructor; [discriminate|assumption].
Qed.

Lemma readlines_count c s :
  Forall (fun l => (count c l <= count c s)%nat) (readlines s).
Proof.
  induction s as [|a s IH]; cbn [readlines]; [constructor|].
  destruct (Ascii.eqb a LF).
  - constructor; [cbn; lia|]. eapply Forall_impl; [exact IH|]. cbn. intros; lia.
  - destruct (readlines s) as [|l ls].
    + repeat constructor. cbn. lia.
    + apply Forall_cons in IH as [Hl Hls]. constructor; [cbn; lia|].
      eapply Forall_impl; [exact Hls|]. cbn. intros; lia.
Qed.

Lemma universal_newlines_cons c s :
  universal_newlines (String c s)
  = if Ascii.eqb c CR then
      String LF match s with
                | String c' s'' =>
                    if Ascii.eqb c' LF then universal_newlines s''
                    else universal_newlines s
                | "" => ""
                end
    else String c (universal_newlines s).
Proof. destruct s; reflexivity. Qed.

Lemma universal_newlines_no_cr_aux s :
  count CR (universal_newlines s) = O
  /\ forall c, count CR (universal_newlines (String c s)) = O.
Proof.
  induction s as [|a s [IH1 IH2]].
  - split; [reflexivity|]. intros c. rewrite universal_newlines_cons.
    destruct (Ascii.eqb_spec c CR) as [->|Hc]; [reflexivity|].
    cbn. destruct (Ascii.eqb_spec c CR); [contradiction|reflexivity].
  - split; [apply IH2|]. intros c. rewrite universal_newlines_cons.
    destruct (Ascii.eqb_spec c CR) as [->|Hc].
    + destruct (Ascii.eqb a LF); cbn [count]; [rewrite IH1|rewrite IH2]; reflexivity.
    + cbn [count]. rewrite IH2.
      destruct (Ascii.eqb_spec c CR); [contradiction|reflexivity].
Qed.

Lemma universal_newlines_no_cr s : count CR (universal_newlines s) = O.
Proof. apply universal_newlines_no_cr_aux. Qed.

(** [X19] The lines the script iterates over make up the text of the
    file, with every ["\r\n"] and ["\r"] read as a line feed: put
    together they give that text back, no line is empty, no line
    holds a carriage return, and a line feed can only be the last
    character of a line. *)
Theorem lines_of_partition text :
  join_all (lines_of text) = universal_newlines text
  /\ Forall (fun l => l <> "" /\ count CR l = O /\ line_shape l) (lines_of text).
Proof.
  unfold lines_of. split; [apply readlines_join|].
  pose proof (readlines_nonempty (universal_newlines text)) as H1.
  pose proof (readlines_count CR (universal_newlines text)) as H2.
  pose proof (readlines_shape (universal_newlines text)) as H3.
  rewrite universal_newlines_no_cr in H2.
  rewrite Forall_forall in *. intros l Hl.
  specialize (H1 l Hl). specialize (H2 l Hl). specialize (H3 l Hl). cbn in H2.
  split; [assumption|]. split; [lia|assumption].
Qed.

(** [X20] Splitting a line at its colons loses nothing: the pieces hold
    no colon, there is one piece more than there are colons, and the
    pieces joined with colons give the line back. *)
Theorem split_colon_round_trip line :
  String.concat ":" (split ":" line) = line
  /\ Forall (fun piece => count ":" piece = O) (split ":" line)
  /\ length (split ":" line) = S (count ":" line).
Proof.
  split; [|split; [apply split_pieces|apply split_length]].
  induction line as [|c s IH]; [reflexivity|]. cbn [split].
  destruct (Ascii.eqb_spec c ":") as [->|Hc].
  - pose proof (split_nonempty ":" s) as Hne.
    cbn [String.concat]. destruct (split ":" s) as [|p ps]; [congruence|].
    rewrite IH. reflexivity.
  - pose proof (split_nonempty ":" s) as Hne.
    destruct (split ":" s) as [|p ps]; [congruence|].
    cbn [String.concat] in *. destruct ps.
    + rewrite IH. reflexivity.
    + rewrite app_cons, IH. reflexivity.
Qed.

End MemAnalyzeMore.
